(** * Etcd bootstrap tasks of kubekey ([pkg/etcd/tasks.go])

    A shallow embedding of the host-scoped actions that build the shared
    [EtcdCluster] value, render [etcd.env], join and verify members, and
    derive the certificate file list, followed by the properties that the
    design document states about them.

    Go strings are byte strings and are modelled by [string]; the nullable
    [error] interface is [option error]; the remote command transport, the
    file probe and the template engine are collaborators whose answers are
    taken from a [Runner] record carried by the [Runtime]. *)

From Stdlib Require Import String Ascii List ZArith Bool Lia Permutation.
Import ListNotations.

Local Open Scope string_scope.
Local Open Scope list_scope.

(** ** Errors ([github.com/pkg/errors]) *)

Module errors.

(** The error values the package builds.  [fundamental] is what [New]
    returns, [withStack] and [withMessage] are the two wrappers [Wrap]
    stacks on top of a cause.  [external] stands for an error value handed
    back by a collaborator, [runtimePanic] for a Go run-time panic. *)
Inductive error : Type :=
| fundamental (msg : string)
| external (msg : string)
| withStack (cause : error)
| withMessage (cause : error) (msg : string)
| runtimePanic (msg : string).

Definition New (message : string) : option error :=
  Some (fundamental message).

(** "If err is nil, WithStack returns nil." *)
Definition WithStack (err : option error) : option error :=
  match err with
  | None => None
  | Some e => Some (withStack e)
  end.

(** "If err is nil, Wrap returns nil." *)
Definition Wrap (err : option error) (message : string) : option error :=
  match err with
  | None => None
  | Some e => Some (withStack (withMessage e message))
  end.

End errors.

Definition error : Type := errors.error.

(** ** The pieces of package [strings] and of slicing that the tasks use *)

Module strings.

(** [Index s substr]: position of the first occurrence of [substr] in [s],
    or [-1]. *)
Fixpoint index_from (i : Z) (s substr : string) : Z :=
  if String.prefix substr s then i
  else match s with
       | EmptyString => (-1)%Z
       | String _ s' => index_from (i + 1) s' substr
       end.

Definition Index (s substr : string) : Z := index_from 0 s substr.

Definition Contains (s substr : string) : bool :=
  (0 <=? Index s substr)%Z.

Definition Join (elems : list string) (sep : string) : string :=
  String.concat sep elems.

End strings.

(** [drop n s] removes [n] leading bytes, and fails when [s] is shorter. *)
Fixpoint drop (n : nat) (s : string) : option string :=
  match n with
  | O => Some s
  | S n' => match s with
            | EmptyString => None
            | String _ s' => drop n' s'
            end
  end.

(** The slice expression [s[lo:]]; [None] is the bounds panic. *)
Definition slice_from (s : string) (lo : Z) : option string :=
  if (lo <? 0)%Z then None else drop (Z.to_nat lo) s.

(** ** Data model *)

Record EtcdCluster : Type := {
  clusterExist : bool;
  accessAddresses : string;
  peerAddresses : list string
}.

Definition NewCluster : string := "new".
Definition ExistCluster : string := "existing".

(** The two entries of a host's cache that the etcd tasks write and read
    ([common.ETCDName], a string, and [common.ETCDExist], a bool). *)
Record HostCache : Type := {
  ETCDName : option string;
  ETCDExist : option bool
}.

Definition emptyCache : HostCache :=
  {| ETCDName := None; ETCDExist := None |}.

Definition SetETCDName (c : HostCache) (v : string) : HostCache :=
  {| ETCDName := Some v; ETCDExist := ETCDExist c |}.

Definition SetETCDExist (c : HostCache) (v : bool) : HostCache :=
  {| ETCDName := ETCDName c; ETCDExist := Some v |}.

Record Host : Type := {
  GetName : string;
  GetInternalAddress : string;
  GetArch : string;
  GetCache : HostCache
}.

Definition withCache (h : Host) (c : HostCache) : Host :=
  {| GetName := GetName h;
     GetInternalAddress := GetInternalAddress h;
     GetArch := GetArch h;
     GetCache := c |}.

(** The data map handed to the [etcd.env] template. *)
Record EtcdEnvData : Type := {
  Tag : string;
  Name : string;
  Ip : string;
  Hostname : string;
  State : string;
  peerAddressesField : string;
  UnsupportedArch : bool;
  Arch : string
}.

Record Template : Type := {
  Dst : string;
  Data : EtcdEnvData
}.

(** What a step asks of its collaborators, in the order it asks. *)
Inductive Effect : Type :=
| EFileExist (path : string)
| ESudoCmd (cmd : string) (printOutput : bool)
| ERender (t : Template).

(** Answers of the collaborators on one host connection. *)
Record Runner : Type := {
  FileExist : string -> bool * option error;
  SudoCmd : string -> bool -> string * option error;
  RenderTemplate : Template -> option error
}.

Record Runtime : Type := {
  RemoteHost : Host;
  GetRunner : Runner;
  HostsETCD : list Host;     (* GetHostsByRole(common.ETCD) *)
  HostsMaster : list Host    (* GetHostsByRole(common.Master) *)
}.

Definition onHost (rt : Runtime) (h : Host) : Runtime :=
  {| RemoteHost := h;
     GetRunner := GetRunner rt;
     HostsETCD := HostsETCD rt;
     HostsMaster := HostsMaster rt |}.

(** The pipeline cache entry under [common.ETCDCluster]: absent, or the one
    [*EtcdCluster] every task mutates in place. *)
Definition PipelineCache : Type := option EtcdCluster.

(** What an [Execute] leaves behind. *)
Record Outcome : Type := {
  hostCache : HostCache;
  pipelineCache : PipelineCache;
  effects : list Effect;
  err : option error
}.

Definition peersOf (pc : PipelineCache) : list string :=
  match pc with
  | Some c => peerAddresses c
  | None => []
  end.

(** [fmt.Sprintf("%s=https://%s:2380", etcdName, host.GetInternalAddress())] *)
Definition peerEntry (etcdName : string) (host : Host) : string :=
  etcdName ++ "=https://" ++ GetInternalAddress host ++ ":2380".

(** [fmt.Sprintf("https://%s:2379", host.GetInternalAddress())] *)
Definition clientEndpoint (host : Host) : string :=
  "https://" ++ GetInternalAddress host ++ ":2379".

(** ** GetStatus *)

Definition etcdEnvPath : string := "/etc/etcd.env".
Definition readNameCmd : string := "cat /etc/etcd.env | grep ETCD_NAME".

Definition GetStatus_Execute (rt : Runtime) (pc : PipelineCache) : Outcome :=
  let host := RemoteHost rt in
  let probe := [EFileExist etcdEnvPath] in
  match FileExist (GetRunner rt) etcdEnvPath with
  | (_, Some e) =>
      {| hostCache := GetCache host; pipelineCache := pc;
         effects := probe; err := Some e |}
  | (exist_, None) =>
      let cluster := {| clusterExist := true;
                        accessAddresses := "";
                        peerAddresses := [] |} in
      if exist_ then
        let asked := probe ++ [ESudoCmd readNameCmd true] in
        match SudoCmd (GetRunner rt) readNameCmd true with
        | (_, Some e) =>
            {| hostCache := GetCache host; pipelineCache := pc;
               effects := asked; err := Some e |}
        | (etcdEnv, None) =>
            match slice_from etcdEnv (strings.Index etcdEnv "=" + 1) with
            | None =>
                {| hostCache := GetCache host; pipelineCache := pc;
                   effects := asked;
                   err := Some (errors.runtimePanic
                                  "slice bounds out of range") |}
            | Some etcdName =>
                let hc := SetETCDExist (SetETCDName (GetCache host) etcdName)
                                       true in
                match pc with
                | Some c =>
                    {| hostCache := hc;
                       pipelineCache :=
                         Some {| clusterExist := true;
                                 accessAddresses := accessAddresses c;
                                 peerAddresses :=
                                   peerAddresses c
                                     ++ [peerEntry etcdName host] |};
                       effects := asked; err := None |}
                | None =>
                    {| hostCache := hc;
                       pipelineCache :=
                         Some {| clusterExist := true;
                                 accessAddresses := accessAddresses cluster;
                                 peerAddresses :=
                                   peerAddresses cluster
                                     ++ [peerEntry etcdName host] |};
                       effects := asked; err := None |}
                end
            end
        end
      else
        let hc := SetETCDExist
                    (SetETCDName (GetCache host) ("etcd-" ++ GetName host))
                    false in
        match pc with
        | Some _ =>
            {| hostCache := hc; pipelineCache := pc;
               effects := probe; err := None |}
        | None =>
            {| hostCache := hc;
               pipelineCache :=
                 Some {| clusterExist := false;
                         accessAddresses := accessAddresses cluster;
                         peerAddresses := peerAddresses cluster |};
               effects := probe; err := None |}
        end
  end.

(** ** Certificate file list *)

(** The loops of [generateCertsFiles] append to [certsList] host by host. *)
Definition generateCertsFiles (rt : Runtime) : list string :=
  let certsList := [] in
  let certsList := certsList ++ ["ca.pem"] in
  let certsList := certsList ++ ["ca-key.pem"] in
  let certsList :=
    fold_left
      (fun certsList host =>
         let certsList :=
           certsList ++ [("admin-" ++ GetName host ++ ".pem")%string] in
         let certsList :=
           certsList ++ [("admin-" ++ GetName host ++ "-key.pem")%string] in
         let certsList :=
           certsList ++ [("member-" ++ GetName host ++ ".pem")%string] in
         certsList ++ [("member-" ++ GetName host ++ "-key.pem")%string])
      (HostsETCD rt) certsList in
  fold_left
    (fun certsList host =>
       let certsList :=
         certsList ++ [("node-" ++ GetName host ++ ".pem")%string] in
       certsList ++ [("node-" ++ GetName host ++ "-key.pem")%string])
    (HostsMaster rt) certsList.

Section Tasks.

(** Constants of packages that the tasks import: [common.BinDir],
    [kubekeyapiv1alpha2.DefaultEtcdVersion] and the name of the
    [templates.EtcdEnv] template. *)
Variable BinDir : string.
Variable DefaultEtcdVersion : string.
Variable EtcdEnvName : string.

Definition missingCluster : option error :=
  errors.New "get etcd cluster status by pipeline cache failed".

Definition missingName : option error :=
  errors.New "get etcd node status by host label failed".

(** The [export ...;] prefix shared by every [etcdctl] invocation. *)
Definition etcdctlEnv (host : Host) : string :=
  "export ETCDCTL_API=2;"
  ++ "export ETCDCTL_CERT_FILE='/etc/ssl/etcd/ssl/admin-" ++ GetName host
  ++ ".pem';"
  ++ "export ETCDCTL_KEY_FILE='/etc/ssl/etcd/ssl/admin-" ++ GetName host
  ++ "-key.pem';"
  ++ "export ETCDCTL_CA_FILE='/etc/ssl/etcd/ssl/ca.pem';".

(** *** GenerateAccessAddress *)

Definition GenerateAccessAddress_Execute
           (rt : Runtime) (pc : PipelineCache) : Outcome :=
  let addrList :=
    fold_left (fun addrList host => addrList ++ [clientEndpoint host])
              (HostsETCD rt) [] in
  let accessAddresses_ := strings.Join addrList "," in
  match pc with
  | Some cluster =>
      {| hostCache := GetCache (RemoteHost rt);
         pipelineCache :=
           Some {| clusterExist := clusterExist cluster;
                   accessAddresses := accessAddresses_;
                   peerAddresses := peerAddresses cluster |};
         effects := []; err := None |}
  | None =>
      {| hostCache := GetCache (RemoteHost rt); pipelineCache := pc;
         effects := []; err := missingCluster |}
  end.

(** *** HealthCheck *)

Definition checkHealthCmd (host : Host) (cluster : EtcdCluster) : string :=
  etcdctlEnv host
  ++ BinDir ++ "/etcdctl --endpoints=" ++ accessAddresses cluster
  ++ " cluster-health | grep -q 'cluster is healthy'".

Definition healthCheck (rt : Runtime) (cluster : EtcdCluster)
  : list Effect * option error :=
  let host := RemoteHost rt in
  let cmd := checkHealthCmd host cluster in
  let '(_, err_) := SudoCmd (GetRunner rt) cmd false in
  ([ESudoCmd cmd false],
   match err_ with
   | Some _ =>
       errors.Wrap (errors.WithStack err_) "etcd health check failed"
   | None => None
   end).

Definition HealthCheck_Execute (rt : Runtime) (pc : PipelineCache)
  : Outcome :=
  match pc with
  | Some cluster =>
      let '(asked, err_) := healthCheck rt cluster in
      {| hostCache := GetCache (RemoteHost rt); pipelineCache := pc;
         effects := asked; err := err_ |}
  | None =>
      {| hostCache := GetCache (RemoteHost rt); pipelineCache := pc;
         effects := []; err := missingCluster |}
  end.

(** *** GenerateConfig, RefreshConfig *)

Definition refreshConfig (rt : Runtime) (endpoints : list string)
           (state etcdName : string) : list Effect * option error :=
  let host := RemoteHost rt in
  let UnsupportedArch_ := negb (String.eqb (GetArch host) "amd64") in
  let templateAction :=
    {| Dst := "/etc/" ++ EtcdEnvName;
       Data := {| Tag := DefaultEtcdVersion;
                  Name := etcdName;
                  Ip := GetInternalAddress host;
                  Hostname := GetName host;
                  State := state;
                  peerAddressesField := strings.Join endpoints ",";
                  UnsupportedArch := UnsupportedArch_;
                  Arch := GetArch host |} |} in
  ([ERender templateAction], RenderTemplate (GetRunner rt) templateAction).

Definition GenerateConfig_Execute (rt : Runtime) (pc : PipelineCache)
  : Outcome :=
  let host := RemoteHost rt in
  match ETCDName (GetCache host) with
  | None =>
      {| hostCache := GetCache host; pipelineCache := pc;
         effects := []; err := missingName |}
  | Some etcdName =>
      match pc with
      | Some c =>
          let cluster :=
            {| clusterExist := clusterExist c;
               accessAddresses := accessAddresses c;
               peerAddresses :=
                 peerAddresses c ++ [peerEntry etcdName host] |} in
          let '(asked, err_) :=
            if negb (clusterExist cluster)
            then refreshConfig rt (peerAddresses cluster) NewCluster
                               etcdName
            else refreshConfig rt (peerAddresses cluster) ExistCluster
                               etcdName in
          {| hostCache := GetCache host; pipelineCache := Some cluster;
             effects := asked; err := err_ |}
      | None =>
          {| hostCache := GetCache host; pipelineCache := pc;
             effects := []; err := missingCluster |}
      end
  end.

Definition RefreshConfig_Execute (ToExisting : bool)
           (rt : Runtime) (pc : PipelineCache) : Outcome :=
  let host := RemoteHost rt in
  match ETCDName (GetCache host) with
  | None =>
      {| hostCache := GetCache host; pipelineCache := pc;
         effects := []; err := missingName |}
  | Some etcdName =>
      match pc with
      | Some cluster =>
          let '(asked, err_) :=
            if ToExisting
            then refreshConfig rt (peerAddresses cluster) ExistCluster
                               etcdName
            else if negb (clusterExist cluster)
            then refreshConfig rt (peerAddresses cluster) NewCluster
                               etcdName
            else refreshConfig rt (peerAddresses cluster) ExistCluster
                               etcdName in
          {| hostCache := GetCache host; pipelineCache := pc;
             effects := asked; err := err_ |}
      | None =>
          {| hostCache := GetCache host; pipelineCache := pc;
             effects := []; err := missingCluster |}
      end
  end.

(** *** JoinMember, CheckMember *)

Definition joinMemberCmd (host : Host) (cluster : EtcdCluster)
           (etcdName : string) : string :=
  etcdctlEnv host
  ++ BinDir ++ "/etcdctl --endpoints=" ++ accessAddresses cluster
  ++ " member add " ++ etcdName ++ " "
  ++ ("https://" ++ GetInternalAddress host ++ ":2380").

Definition JoinMember_Execute (rt : Runtime) (pc : PipelineCache)
  : Outcome :=
  let host := RemoteHost rt in
  match ETCDName (GetCache host) with
  | None =>
      {| hostCache := GetCache host; pipelineCache := pc;
         effects := []; err := missingName |}
  | Some etcdName =>
      match pc with
      | Some cluster =>
          let cmd := joinMemberCmd host cluster etcdName in
          let '(_, err_) := SudoCmd (GetRunner rt) cmd true in
          {| hostCache := GetCache host; pipelineCache := pc;
             effects := [ESudoCmd cmd true];
             err := match err_ with
                    | Some _ =>
                        errors.Wrap (errors.WithStack err_)
                                    "add etcd member failed"
                    | None => None
                    end |}
      | None =>
          {| hostCache := GetCache host; pipelineCache := pc;
             effects := []; err := missingCluster |}
      end
  end.

Definition checkMemberCmd (host : Host) (cluster : EtcdCluster) : string :=
  etcdctlEnv host
  ++ BinDir ++ "/etcdctl --no-sync --endpoints=" ++ accessAddresses cluster
  ++ " member list".

Definition CheckMember_Execute (rt : Runtime) (pc : PipelineCache)
  : Outcome :=
  let host := RemoteHost rt in
  match pc with
  | Some cluster =>
      let cmd := checkMemberCmd host cluster in
      let '(memberList, err_) := SudoCmd (GetRunner rt) cmd true in
      {| hostCache := GetCache host; pipelineCache := pc;
         effects := [ESudoCmd cmd true];
         err := match err_ with
                | Some _ =>
                    errors.Wrap (errors.WithStack err_)
                                "list etcd member failed"
                | None =>
                    if negb (strings.Contains memberList
                                              (clientEndpoint host))
                    then errors.Wrap (errors.WithStack err_)
                                     "add etcd member failed"
                    else None
                end |}
  | None =>
      {| hostCache := GetCache host; pipelineCache := pc;
         effects := []; err := missingCluster |}
  end.

(** ** Dispatch of the steps *)

Inductive Op : Type :=
| OpGetStatus
| OpGenerateAccessAddress
| OpHealthCheck
| OpGenerateConfig
| OpRefreshConfig (ToExisting : bool)
| OpJoinMember
| OpCheckMember.

Definition Execute (op : Op) : Runtime -> PipelineCache -> Outcome :=
  match op with
  | OpGetStatus => GetStatus_Execute
  | OpGenerateAccessAddress => GenerateAccessAddress_Execute
  | OpHealthCheck => HealthCheck_Execute
  | OpGenerateConfig => GenerateConfig_Execute
  | OpRefreshConfig ToExisting => RefreshConfig_Execute ToExisting
  | OpJoinMember => JoinMember_Execute
  | OpCheckMember => CheckMember_Execute
  end.

(** An interleaving of steps: each entry is one step on one host's
    runtime.  The shared [*EtcdCluster] is mutated in place, so whatever a
    step wrote stays in the pipeline cache whether or not the step then
    reported an error. *)
Definition Schedule : Type := list (Op * Runtime).

Definition runSchedule (sched : Schedule) (pc : PipelineCache)
  : PipelineCache :=
  fold_left (fun pc step => pipelineCache (Execute (fst step) (snd step) pc))
            sched pc.

Definition existsFlag (pc : PipelineCache) : bool :=
  match pc with
  | Some c => clusterExist c
  | None => false
  end.

(** Modelled from the spec: the external task runner, which is not part of
    this package, "visits hosts (in an order it controls) and invokes these
    components' operations".  A run is over an inventory [rts] of hosts,
    addressed by position.  Every host object keeps its own cache between
    the steps that visit it, and the pipeline cache is shared by all. *)
Record Run : Type := {
  caches : nat -> HostCache;
  shared : PipelineCache
}.

Definition start (rts : list Runtime) : Run :=
  {| caches := fun i => match nth_error rts i with
                        | Some rt => GetCache (RemoteHost rt)
                        | None => emptyCache
                        end;
     shared := None |}.

(** Host [i] as the run has left it. *)
Definition hostAt (run : Run) (i : nat) (rt : Runtime) : Runtime :=
  onHost rt (withCache (RemoteHost rt) (caches run i)).

(** One step on the host at position [snd step]. *)
Definition visit (rts : list Runtime) (run : Run) (step : Op * nat)
  : Run * option error :=
  match nth_error rts (snd step) with
  | None => (run, None)
  | Some rt =>
      let out := Execute (fst step) (hostAt run (snd step) rt) (shared run) in
      ({| caches := fun j => if Nat.eqb j (snd step)
                             then hostCache out
                             else caches run j;
          shared := pipelineCache out |},
       err out)
  end.

(** The steps of [sched] in order, up to the first one that fails. *)
Fixpoint visits (rts : list Runtime) (sched : list (Op * nat)) (run : Run)
  : Run * option error :=
  match sched with
  | [] => (run, None)
  | step :: rest =>
      let '(run', e) := visit rts run step in
      match e with
      | Some _ => (run', e)
      | None => visits rts rest run'
      end
  end.

(** ** Reading a runner's answers *)

Definition markerPresent (rt : Runtime) : bool :=
  fst (FileExist (GetRunner rt) etcdEnvPath).

(** The text after the first ['='] of [s], if [s] has one. *)
Fixpoint afterFirstEq (s : string) : option string :=
  match s with
  | EmptyString => None
  | String c s' => if Ascii.eqb c "=" then Some s' else afterFirstEq s'
  end.

Definition envValue (s : string) : string :=
  match afterFirstEq s with
  | Some v => v
  | None => s
  end.

(** The member name the probe records for a host. *)
Definition probedName (rt : Runtime) : string :=
  if markerPresent rt
  then envValue (fst (SudoCmd (GetRunner rt) readNameCmd true))
  else "etcd-" ++ GetName (RemoteHost rt).

Definition probeSucceeds (rt : Runtime) : Prop :=
  snd (FileExist (GetRunner rt) etcdEnvPath) = None
  /\ (markerPresent rt = true ->
      snd (SudoCmd (GetRunner rt) readNameCmd true) = None).

Definition renderSucceeds (rt : Runtime) : Prop :=
  forall t, RenderTemplate (GetRunner rt) t = None.

(** ** Sample hosts and runner answers *)

Definition mkHost (name addr : string) : Host :=
  {| GetName := name; GetInternalAddress := addr; GetArch := "amd64";
     GetCache := emptyCache |}.

(** A runner that answers every probe with [marker], every command with
    the output [out], and renders every template, all without error. *)
Definition answering (marker : bool) (out : string) : Runner :=
  {| FileExist := fun _ => (marker, None);
     SudoCmd := fun _ _ => (out, None);
     RenderTemplate := fun _ => None |}.

(** A runner whose connection is broken: every call reports [msg]. *)
Definition failing (msg : string) : Runner :=
  {| FileExist := fun _ => (false, Some (errors.external msg));
     SudoCmd := fun _ _ => ("", Some (errors.external msg));
     RenderTemplate := fun _ => Some (errors.external msg) |}.

Definition runtimeOn (h : Host) (r : Runner) : Runtime :=
  {| RemoteHost := h; GetRunner := r; HostsETCD := []; HostsMaster := [] |}.

Definition inventory (etcd master : list Host) : Runtime :=
  {| RemoteHost := mkHost "" ""; GetRunner := answering false "";
     HostsETCD := etcd; HostsMaster := master |}.

Definition node1 : Host := mkHost "node1" "10.0.0.1".
Definition node2 : Host := mkHost "node2" "10.0.0.2".
Definition node3 : Host := mkHost "node3" "10.0.0.3".

(** A host on which etcd already runs under the name [etcd-node1], and a
    host without the marker file. *)
Definition member1 : Runtime :=
  runtimeOn node1 (answering true "ETCD_NAME=etcd-node1").

Definition fresh (h : Host) : Runtime := runtimeOn h (answering false "").

Definition threeFresh : list Runtime := [fresh node1; fresh node2; fresh node3].

(** Probe all three, then configure them, the second host first. *)
Definition onePerHost : list (Op * nat) :=
  [(OpGetStatus, 0); (OpGetStatus, 1); (OpGetStatus, 2);
   (OpGenerateConfig, 1); (OpGenerateConfig, 0); (OpGenerateConfig, 2)].

(** A host whose cache already holds its member name. *)
Definition named (h : Host) (etcdName : string) : Host :=
  withCache h (SetETCDName (GetCache h) etcdName).

(** [node1] after its probe, and the shared value of a cluster that is
    still to be founded. *)
Definition configured1 : Runtime :=
  runtimeOn (named node1 "etcd-node1") (answering false "").

Definition foundingCluster : EtcdCluster :=
  {| clusterExist := false; accessAddresses := ""; peerAddresses := [] |}.

(** A host whose marker file exists but cannot be read. *)
Definition unreadable (msg : string) : Runner :=
  {| FileExist := fun _ => (true, None);
     SudoCmd := fun _ _ => ("", Some (errors.external msg));
     RenderTemplate := fun _ => None |}.

Definition hostA : Host := mkHost "a" "10.0.0.1".
Definition hostAKey : Host := mkHost "a-key" "10.0.0.2".
Definition hostM : Host := mkHost "m" "10.0.0.3".

Definition sampleBinDir : string := "/usr/local/bin".
Definition sampleEtcdVersion : string := "v3.4.13".
Definition sampleEnvName : string := "etcd.env".

(** ** Vocabulary of the statements *)

Definition accessOf (pc : PipelineCache) : string :=
  match pc with
  | Some c => accessAddresses c
  | None => ""
  end.

Definition isRender (e : Effect) : Prop :=
  match e with
  | ERender _ => True
  | _ => False
  end.

Definition refreshSteps (steps : list (bool * Runtime)) : Schedule :=
  map (fun step => (OpRefreshConfig (fst step), snd step)) steps.

Definition consumers : list Op :=
  [OpGenerateAccessAddress; OpHealthCheck; OpGenerateConfig;
   OpRefreshConfig true; OpRefreshConfig false; OpJoinMember;
   OpCheckMember].

Definition emptyCluster : EtcdCluster :=
  {| clusterExist := true; accessAddresses := ""; peerAddresses := [] |}.

Definition memberFiles (host : Host) : list string :=
  [("admin-" ++ GetName host ++ ".pem")%string;
   ("admin-" ++ GetName host ++ "-key.pem")%string;
   ("member-" ++ GetName host ++ ".pem")%string;
   ("member-" ++ GetName host ++ "-key.pem")%string].

Definition nodeFiles (host : Host) : list string :=
  [("node-" ++ GetName host ++ ".pem")%string;
   ("node-" ++ GetName host ++ "-key.pem")%string].

(** No name in [names] is another name of [names] followed by ["-key"];
    otherwise the certificate of the one host and the key of the other
    would be the same file. *)
Definition keyFree (names : list string) : Prop :=
  forall a b, In a names -> In b names -> a <> (b ++ "-key")%string.

(** Two hosts whose file lists share a file have related names. *)
Definition namesCollide (a b : string) : Prop :=
  a = b \/ a = (b ++ "-key")%string \/ b = (a ++ "-key")%string.

(** The peer entry a host contributes. *)
Definition entryOf (rt : Runtime) : string :=
  peerEntry (probedName rt) (RemoteHost rt).

(** [ordered n done sched]: the schedule consists of probes and config
    generations on hosts at positions below [n], and every config generation
    on a host comes after a probe of that host, in [sched] itself or, for the
    hosts of [done], before it. *)
Fixpoint ordered (n : nat) (done : list nat) (sched : list (Op * nat))
  : Prop :=
  match sched with
  | [] => True
  | (OpGetStatus, i) :: rest => i < n /\ ordered n (i :: done) rest
  | (OpGenerateConfig, i) :: rest =>
      i < n /\ In i done /\ ordered n done rest
  | _ :: _ => False
  end.

Definition isGetStatus (step : Op * nat) : bool :=
  match fst step with
  | OpGetStatus => true
  | _ => false
  end.

Definition isGenerateConfig (step : Op * nat) : bool :=
  match fst step with
  | OpGenerateConfig => true
  | _ => false
  end.

(** The positions a schedule probes, and those it configures, in order. *)
Definition probes (sched : list (Op * nat)) : list nat :=
  map snd (filter isGetStatus sched).

Definition configs (sched : list (Op * nat)) : list nat :=
  map snd (filter isGenerateConfig sched).

(** The hosts at the positions [idx]. *)
Definition hostsOf (rts : list Runtime) (idx : list nat) : list Runtime :=
  flat_map (fun i => match nth_error rts i with
                     | Some rt => [rt]
                     | None => []
                     end) idx.

(** The probe has left its name in the cache of every host of [done]. *)
Definition recorded (rts : list Runtime) (run : Run) (done : list nat)
  : Prop :=
  forall i, In i done ->
            exists rt, nth_error rts i = Some rt
                       /\ ETCDName (caches run i) = Some (probedName rt).

(** What one step appends to the peer list. *)
Definition contribution (rts : list Runtime) (step : Op * nat)
  : list string :=
  match nth_error rts (snd step) with
  | None => []
  | Some rt =>
      match fst step with
      | OpGetStatus => if markerPresent rt then [entryOf rt] else []
      | OpGenerateConfig => [entryOf rt]
      | _ => []
      end
  end.

(** The shared value after a successful probe of one host. *)
Definition afterProbe (pc : PipelineCache) (rt : Runtime) : PipelineCache :=
  if markerPresent rt
  then Some {| clusterExist := true;
               accessAddresses := accessOf pc;
               peerAddresses := peersOf pc ++ [entryOf rt] |}
  else match pc with
       | Some _ => pc
       | None => Some {| clusterExist := false;
                         accessAddresses := "";
                         peerAddresses := [] |}
       end.

(** ** Certificate generation and distribution *)

(** Further constants and functions of imported packages, handed to the
    tasks that use them: [common.ETCDCertDir], [common.TmpDir] and
    [filepath.Join] on two elements. *)
Record Paths : Type := {
  ETCDCertDir : string;
  TmpDir : string;
  filepath_Join : string -> string -> string
}.

(** The two entries of the module cache, under the keys [LocalCertsDir]
    (a string) and [CertsFileList] (a [[]string]). *)
Record ModuleCache : Type := {
  LocalCertsDir : option string;
  CertsFileList : option (list string)
}.

(** What the certificate tasks ask besides [SudoCmd]: the work directory,
    the file transfers of the runner ([Fetch (local, remote)],
    [SudoScp (local, remote)]) and [util.CreateDir]. *)
Record Transport : Type := {
  GetWorkDir : string;
  Fetch : string -> string -> option error;
  SudoScp : string -> string -> option error;
  CreateDir : string -> option error
}.

Inductive Call : Type :=
| CSudoCmd (cmd : string) (printOutput : bool)
| CCreateDir (path : string)
| CFetch (local remote : string)
| CSudoScp (local remote : string).

Record CertsOutcome : Type := {
  moduleCache : ModuleCache;
  calls : list Call;
  failure : option error
}.

(** The loop of [ExecCertsScript.Execute] over [files]: one [Fetch] per
    file, returning at the first one that fails. *)
Fixpoint fetchFiles (k : Paths) (tp : Transport)
         (localCertsDir tmpCertsDir : string) (files : list string)
  : list Call * option error :=
  match files with
  | [] => ([], None)
  | fileName :: rest =>
      let local := filepath_Join k localCertsDir fileName in
      let remote := filepath_Join k tmpCertsDir fileName in
      let err_ := Fetch tp local remote in
      match err_ with
      | Some _ =>
          ([CFetch local remote],
           errors.Wrap (errors.WithStack err_) "fetch etcd certs file failed")
      | None =>
          let '(asked, e) :=
            fetchFiles k tp localCertsDir tmpCertsDir rest in
          (CFetch local remote :: asked, e)
      end
  end.

Definition ExecCertsScript_Execute (k : Paths) (rt : Runtime)
           (tp : Transport) (mc : ModuleCache) : CertsOutcome :=
  let chmod :=
    ("chmod +x " ++ ETCDCertDir k ++ "/make-ssl-etcd.sh")%string in
  let '(_, err1) := SudoCmd (GetRunner rt) chmod false in
  match err1 with
  | Some _ =>
      {| moduleCache := mc; calls := [CSudoCmd chmod false];
         failure := err1 |}
  | None =>
      let cmd :=
        ("/bin/bash -x " ++ ETCDCertDir k ++ "/make-ssl-etcd.sh -f "
           ++ ETCDCertDir k ++ "/openssl.conf -d " ++ ETCDCertDir k)%string
      in
      let '(_, err2) := SudoCmd (GetRunner rt) cmd false in
      match err2 with
      | Some _ =>
          {| moduleCache := mc;
             calls := [CSudoCmd chmod false; CSudoCmd cmd false];
             failure := errors.Wrap (errors.WithStack err2)
                                    "generate etcd certs failed" |}
      | None =>
          let tmpCertsDir := filepath_Join k (TmpDir k) "ETCD_certs" in
          let cp :=
            ("cp -r " ++ ETCDCertDir k ++ " " ++ tmpCertsDir)%string in
          let '(_, err3) := SudoCmd (GetRunner rt) cp false in
          match err3 with
          | Some _ =>
              {| moduleCache := mc;
                 calls := [CSudoCmd chmod false; CSudoCmd cmd false;
                           CSudoCmd cp false];
                 failure := errors.Wrap (errors.WithStack err3)
                                        "copy certs result failed" |}
          | None =>
              let localCertsDir :=
                filepath_Join k (GetWorkDir tp) "ETCD_certs" in
              let err4 := CreateDir tp localCertsDir in
              match err4 with
              | Some _ =>
                  {| moduleCache := mc;
                     calls := [CSudoCmd chmod false; CSudoCmd cmd false;
                               CSudoCmd cp false; CCreateDir localCertsDir];
                     failure := err4 |}
              | None =>
                  let files := generateCertsFiles rt in
                  let '(fetched, err5) :=
                    fetchFiles k tp localCertsDir tmpCertsDir files in
                  match err5 with
                  | Some _ =>
                      {| moduleCache := mc;
                         calls := [CSudoCmd chmod false; CSudoCmd cmd false;
                                   CSudoCmd cp false;
                                   CCreateDir localCertsDir] ++ fetched;
                         failure := err5 |}
                  | None =>
                      {| moduleCache :=
                           {| LocalCertsDir := Some localCertsDir;
                              CertsFileList := Some files |};
                         calls := [CSudoCmd chmod false; CSudoCmd cmd false;
                                   CSudoCmd cp false;
                                   CCreateDir localCertsDir] ++ fetched;
                         failure := None |}
                  end
              end
          end
      end
  end.

(** The loop of [SyncCertsFile.Execute]: one [SudoScp] per file, returning
    at the first one that fails. *)
Fixpoint pushFiles (k : Paths) (tp : Transport) (dir : string)
         (fileList : list string) : list Call * option error :=
  match fileList with
  | [] => ([], None)
  | fileName :: rest =>
      let local := filepath_Join k dir fileName in
      let remote := filepath_Join k (ETCDCertDir k) fileName in
      let err_ := SudoScp tp local remote in
      match err_ with
      | Some _ =>
          ([CSudoScp local remote],
           errors.Wrap (errors.WithStack err_) "scp etcd certs file failed")
      | None =>
          let '(asked, e) := pushFiles k tp dir rest in
          (CSudoScp local remote :: asked, e)
      end
  end.

Definition SyncCertsFile_Execute (k : Paths) (tp : Transport)
           (mc : ModuleCache) : CertsOutcome :=
  match LocalCertsDir mc with
  | None =>
      {| moduleCache := mc; calls := [];
         failure :=
           errors.New "get etcd local certs dir by module cache failed" |}
  | Some dir =>
      match CertsFileList mc with
      | None =>
          {| moduleCache := mc; calls := [];
             failure :=
               errors.New "get etcd certs file list by module cache failed" |}
      | Some fileList =>
          let '(asked, e) := pushFiles k tp dir fileList in
          {| moduleCache := mc; calls := asked; failure := e |}
      end
  end.

(** ** Vocabulary of the further statements *)

(** Everything the steps of a schedule ask of their collaborators, in
    order. *)
Fixpoint runLog (sched : Schedule) (pc : PipelineCache) : list Effect :=
  match sched with
  | [] => []
  | step :: rest =>
      let out := Execute (fst step) (snd step) pc in
      effects out ++ runLog rest (pipelineCache out)
  end.

(** The [State] of the templates among a list of effects. *)
Definition renderedStates (log : list Effect) : list string :=
  flat_map (fun e => match e with
                     | ERender t => [State (Data t)]
                     | _ => []
                     end) log.

(** Steps that render the host's config with the token read from the
    shared state. *)
Definition rendersByFlag (step : Op * Runtime) : Prop :=
  fst step = OpGenerateConfig \/ fst step = OpRefreshConfig false.

Definition probesOf (rts : list Runtime) : Schedule :=
  map (fun rt => (OpGetStatus, rt)) rts.

Definition tokenFor (exists_ : bool) : string :=
  if exists_ then ExistCluster else NewCluster.

(** The steps that only read the shared state and issue one command. *)
Definition readers : list Op := [OpHealthCheck; OpJoinMember; OpCheckMember].

(** The steps that start by reading the member name from the host's
    cache. *)
Definition needName : list Op :=
  [OpGenerateConfig; OpRefreshConfig true; OpRefreshConfig false;
   OpJoinMember].

Definition emptyModuleCache : ModuleCache :=
  {| LocalCertsDir := None; CertsFileList := None |}.

(** The local and remote path of the transfers among a list of calls. *)
Definition fetched (cs : list Call) : list (string * string) :=
  flat_map (fun c => match c with
                     | CFetch l r => [(l, r)]
                     | _ => []
                     end) cs.

Definition pushed (cs : list Call) : list (string * string) :=
  flat_map (fun c => match c with
                     | CSudoScp l r => [(l, r)]
                     | _ => []
                     end) cs.

(** A transport on which everything succeeds, and one on which the fetch of
    the file at local path [bad] fails. *)
Definition smooth (workDir : string) : Transport :=
  {| GetWorkDir := workDir;
     Fetch := fun _ _ => None;
     SudoScp := fun _ _ => None;
     CreateDir := fun _ => None |}.

Definition losing (workDir bad : string) : Transport :=
  {| GetWorkDir := workDir;
     Fetch := fun l _ => if String.eqb l bad
                         then Some (errors.external "fetch")
                         else None;
     SudoScp := fun _ _ => None;
     CreateDir := fun _ => None |}.

(** The paths of the sample runs, joined by a slash. *)
Definition samplePaths : Paths :=
  {| ETCDCertDir := "/etc/ssl/etcd/ssl";
     TmpDir := "/tmp/kubekey";
     filepath_Join := fun dir name => (dir ++ "/" ++ name)%string |}.

(** The inventory of the sample run: two member-role hosts, one
    control-plane host, certificates generated on [node1]. *)
Definition certHost : Runtime :=
  {| RemoteHost := node1; GetRunner := answering false "";
     HostsETCD := [node1; node2]; HostsMaster := [node3] |}.

(** [t] with its token replaced. *)
Definition withState (t : Template) (state : string) : Template :=
  {| Dst := Dst t;
     Data := {| Tag := Tag (Data t);
                Name := Name (Data t);
                Ip := Ip (Data t);
                Hostname := Hostname (Data t);
                State := state;
                peerAddressesField := peerAddressesField (Data t);
                UnsupportedArch := UnsupportedArch (Data t);
                Arch := Arch (Data t) |} |}.

(** The transfer paths of one certificate file: from the temporary
    directory on the host to the local directory, and from there to the
    certificate directory of a host. *)
Definition fetchPaths (k : Paths) (localCertsDir tmpCertsDir fileName : string)
  : string * string :=
  (filepath_Join k localCertsDir fileName,
   filepath_Join k tmpCertsDir fileName).

Definition pushPaths (k : Paths) (dir fileName : string) : string * string :=
  (filepath_Join k dir fileName,
   filepath_Join k (ETCDCertDir k) fileName).


(** A runner whose renderer always fails, everything else succeeding. *)
Definition unrendered (msg : string) : Runner :=
  {| FileExist := fun _ => (false, None);
     SudoCmd := fun _ _ => ("", None);
     RenderTemplate := fun _ => Some (errors.external msg) |}.

(** ** Strings *)

Lemma append_assoc (a b c : string) : (a ++ (b ++ c) = (a ++ b) ++ c)%string.
Proof.
  induction a as [|x a IH]; simpl; [reflexivity | now rewrite IH].
Qed.

Lemma length_append (a b : string) :
  String.length (a ++ b) = String.length a + String.length b.
Proof.
  induction a as [|x a IH]; simpl; [reflexivity | now rewrite IH].
Qed.

Lemma list_ascii_of_append (a b : string) :
  list_ascii_of_string (a ++ b)
  = list_ascii_of_string a ++ list_ascii_of_string b.
Proof.
  induction a as [|x a IH]; simpl; [reflexivity | now rewrite IH].
Qed.

Lemma list_ascii_of_string_inj (a b : string) :
  list_ascii_of_string a = list_ascii_of_string b -> a = b.
Proof.
  intros H.
  rewrite <- (string_of_list_ascii_of_string a),
          <- (string_of_list_ascii_of_string b).
  now rewrite H.
Qed.

Lemma append_inv_tail (a b s : string) :
  (a ++ s = b ++ s)%string -> a = b.
Proof.
  intros H. apply list_ascii_of_string_inj.
  apply (f_equal list_ascii_of_string) in H.
  rewrite !list_ascii_of_append in H.
  now apply app_inv_tail in H.
Qed.

Lemma append_self_neq (a s : string) :
  s <> EmptyString -> a <> (a ++ s)%string.
Proof.
  intros Hs H. apply (f_equal String.length) in H.
  rewrite length_append in H.
  destruct s; [now apply Hs | simpl in H; lia].
Qed.

Lemma prefix_char (c d : ascii) (s : string) :
  String.prefix (String d EmptyString) (String c s) = Ascii.eqb c d.
Proof.
  simpl. destruct (ascii_dec d c) as [->|Hn].
  - rewrite Ascii.eqb_refl. now destruct s.
  - symmetry. apply Ascii.eqb_neq. congruence.
Qed.

(** [strings.Index s "="] finds the first ['='] and the slice that follows
    it is in bounds. *)
Lemma index_from_eq (s : string) : forall i : Z,
  match afterFirstEq s with
  | Some v =>
      exists k : nat,
        strings.index_from i s "=" = (i + Z.of_nat k)%Z
        /\ drop (S k) s = Some v
  | None => strings.index_from i s "=" = (-1)%Z
  end.
Proof.
  induction s as [|c s IH]; intros i.
  - reflexivity.
  - cbn [afterFirstEq strings.index_from].
    rewrite prefix_char.
    destruct (Ascii.eqb c "=") eqn:E.
    + exists 0. split; [lia | reflexivity].
    + specialize (IH (i + 1)%Z).
      destruct (afterFirstEq s) as [v|].
      * destruct IH as (k & Hk & Hd).
        exists (S k). split; [lia | exact Hd].
      * exact IH.
Qed.

Lemma slice_after_Index (s : string) :
  slice_from s (strings.Index s "=" + 1) = Some (envValue s).
Proof.
  unfold strings.Index, envValue.
  pose proof (index_from_eq s 0) as H.
  destruct (afterFirstEq s) as [v|].
  - destruct H as (k & -> & Hd).
    unfold slice_from.
    replace (0 + Z.of_nat k + 1 <? 0)%Z with false
      by (symmetry; apply Z.ltb_ge; lia).
    replace (Z.to_nat (0 + Z.of_nat k + 1)) with (S k) by lia.
    exact Hd.
  - rewrite H. reflexivity.
Qed.

Lemma envValue_ETCD_NAME (v : string) : envValue ("ETCD_NAME=" ++ v) = v.
Proof. reflexivity. Qed.

(** The examples of the Go documentation for these functions. *)
Example Index_examples :
  strings.Index "chicken" "ken" = 4%Z
  /\ strings.Index "chicken" "dmr" = (-1)%Z.
Proof. split; reflexivity. Qed.

Example Contains_examples :
  strings.Contains "seafood" "foo" = true
  /\ strings.Contains "seafood" "bar" = false
  /\ strings.Contains "seafood" "" = true
  /\ strings.Contains "" "" = true.
Proof. repeat split. Qed.

Example Join_example :
  strings.Join ["foo"; "bar"; "baz"] ", " = "foo, bar, baz".
Proof. reflexivity. Qed.

Example slice_from_examples :
  slice_from "ETCD_NAME=etcd-node1" 10 = Some "etcd-node1"
  /\ slice_from "abc" 3 = Some ""
  /\ slice_from "abc" 4 = None
  /\ slice_from "abc" (-1) = None.
Proof. repeat split. Qed.

(** ** The probe *)

Lemma GetStatus_marker (rt : Runtime) (pc : PipelineCache) (s : string) :
  FileExist (GetRunner rt) etcdEnvPath = (true, None) ->
  SudoCmd (GetRunner rt) readNameCmd true = (s, None) ->
  GetStatus_Execute rt pc
  = {| hostCache :=
         SetETCDExist (SetETCDName (GetCache (RemoteHost rt)) (envValue s))
                      true;
       pipelineCache :=
         Some {| clusterExist := true;
                 accessAddresses := accessOf pc;
                 peerAddresses :=
                   peersOf pc ++ [peerEntry (envValue s) (RemoteHost rt)] |};
       effects := [EFileExist etcdEnvPath; ESudoCmd readNameCmd true];
       err := None |}.
Proof.
  intros Hf Hc. unfold GetStatus_Execute.
  rewrite Hf, Hc, slice_after_Index.
  destruct pc; reflexivity.
Qed.

Lemma GetStatus_no_marker (rt : Runtime) (pc : PipelineCache) :
  FileExist (GetRunner rt) etcdEnvPath = (false, None) ->
  GetStatus_Execute rt pc
  = {| hostCache :=
         SetETCDExist
           (SetETCDName (GetCache (RemoteHost rt))
                        ("etcd-" ++ GetName (RemoteHost rt)))
           false;
       pipelineCache :=
         match pc with
         | Some _ => pc
         | None => Some {| clusterExist := false;
                           accessAddresses := "";
                           peerAddresses := [] |}
         end;
       effects := [EFileExist etcdEnvPath];
       err := None |}.
Proof.
  intros Hf. unfold GetStatus_Execute. rewrite Hf.
  destruct pc; reflexivity.
Qed.

Lemma GetStatus_probe_error (rt : Runtime) (pc : PipelineCache)
      (b : bool) (e : error) :
  FileExist (GetRunner rt) etcdEnvPath = (b, Some e) ->
  GetStatus_Execute rt pc
  = {| hostCache := GetCache (RemoteHost rt); pipelineCache := pc;
       effects := [EFileExist etcdEnvPath]; err := Some e |}.
Proof.
  intros Hf. unfold GetStatus_Execute. now rewrite Hf.
Qed.

Lemma GetStatus_read_error (rt : Runtime) (pc : PipelineCache)
      (s : string) (e : error) :
  FileExist (GetRunner rt) etcdEnvPath = (true, None) ->
  SudoCmd (GetRunner rt) readNameCmd true = (s, Some e) ->
  GetStatus_Execute rt pc
  = {| hostCache := GetCache (RemoteHost rt); pipelineCache := pc;
       effects := [EFileExist etcdEnvPath; ESudoCmd readNameCmd true];
       err := Some e |}.
Proof.
  intros Hf Hc. unfold GetStatus_Execute. now rewrite Hf, Hc.
Qed.

(** C8.  What the probe records for a host.  With the marker file
    [/etc/etcd.env] present, the host's member name is the value the
    [ETCD_NAME] line of the file carries (the text after the first ['='] of
    what [cat /etc/etcd.env | grep ETCD_NAME] printed) and the
    already-member flag is [true]; with the marker absent the name is
    ["etcd-"] followed by the host's own name and the flag is [false]; when
    the existence check or the read fails, the step returns that very error
    and the host's cache is left as it was. *)
Theorem GetStatus_records_identity (rt : Runtime) (pc : PipelineCache) :
  let host := RemoteHost rt in
  let out := GetStatus_Execute rt pc in
  (forall s,
      FileExist (GetRunner rt) etcdEnvPath = (true, None) ->
      SudoCmd (GetRunner rt) readNameCmd true = (s, None) ->
      err out = None
      /\ ETCDName (hostCache out) = Some (envValue s)
      /\ ETCDExist (hostCache out) = Some true
      /\ effects out = [EFileExist etcdEnvPath; ESudoCmd readNameCmd true]
      /\ forall v, s = ("ETCD_NAME=" ++ v)%string ->
                   ETCDName (hostCache out) = Some v)
  /\ (FileExist (GetRunner rt) etcdEnvPath = (false, None) ->
      err out = None
      /\ ETCDName (hostCache out) = Some ("etcd-" ++ GetName host)%string
      /\ ETCDExist (hostCache out) = Some false)
  /\ (forall b e,
         FileExist (GetRunner rt) etcdEnvPath = (b, Some e) ->
         err out = Some e
         /\ hostCache out = GetCache host
         /\ pipelineCache out = pc)
  /\ (forall s e,
         FileExist (GetRunner rt) etcdEnvPath = (true, None) ->
         SudoCmd (GetRunner rt) readNameCmd true = (s, Some e) ->
         err out = Some e
         /\ hostCache out = GetCache host
         /\ pipelineCache out = pc).
Proof.
  cbv zeta. split; [|split; [|split]].
  - intros s Hf Hc. rewrite (GetStatus_marker rt pc s Hf Hc).
    repeat split. intros v ->. reflexivity.
  - intros Hf. rewrite (GetStatus_no_marker rt pc Hf). repeat split.
  - intros b e Hf. rewrite (GetStatus_probe_error rt pc b e Hf).
    repeat split.
  - intros s e Hf Hc. rewrite (GetStatus_read_error rt pc s e Hf Hc).
    repeat split.
Qed.

(** ** The existence flag *)

Lemma refreshConfig_effects (rt : Runtime) (endpoints : list string)
      (state etcdName : string) :
  exists t,
    refreshConfig rt endpoints state etcdName
    = ([ERender t], RenderTemplate (GetRunner rt) t)
    /\ State (Data t) = state
    /\ Name (Data t) = etcdName
    /\ peerAddressesField (Data t) = strings.Join endpoints ",".
Proof.
  unfold refreshConfig. eexists. repeat split.
Qed.

(** Every step either leaves the shared value alone, or rewrites it with
    the same flag, or (the probe on a host that carries the marker) sets
    the flag. *)
Lemma Execute_keeps_exists (op : Op) (rt : Runtime) (pc : PipelineCache) :
  existsFlag pc = true ->
  existsFlag (pipelineCache (Execute op rt pc)) = true.
Proof.
  destruct pc as [c|]; [simpl | discriminate].
  intros Hc.
  destruct op; simpl.
  - unfold GetStatus_Execute.
    destruct (FileExist (GetRunner rt) etcdEnvPath) as [[|] [e|]];
      try exact Hc.
    destruct (SudoCmd (GetRunner rt) readNameCmd true) as [s [e|]];
      try exact Hc.
    destruct (slice_from s (strings.Index s "=" + 1)); [reflexivity|exact Hc].
  - exact Hc.
  - unfold HealthCheck_Execute.
    destruct (healthCheck rt c). exact Hc.
  - unfold GenerateConfig_Execute.
    destruct (ETCDName (GetCache (RemoteHost rt))); [|exact Hc].
    match goal with
    | |- context [let '(_, _) := ?x in _] => destruct x
    end.
    exact Hc.
  - unfold RefreshConfig_Execute.
    destruct (ETCDName (GetCache (RemoteHost rt))); [|exact Hc].
    match goal with
    | |- context [let '(_, _) := ?x in _] => destruct x
    end.
    exact Hc.
  - unfold JoinMember_Execute.
    destruct (ETCDName (GetCache (RemoteHost rt))); [|exact Hc].
    match goal with
    | |- context [let '(_, _) := ?x in _] => destruct x
    end.
    exact Hc.
  - unfold CheckMember_Execute.
    match goal with
    | |- context [let '(_, _) := ?x in _] => destruct x
    end.
    exact Hc.
Qed.

Lemma runSchedule_app (s1 s2 : Schedule) (pc : PipelineCache) :
  runSchedule (s1 ++ s2) pc = runSchedule s2 (runSchedule s1 pc).
Proof. unfold runSchedule. apply fold_left_app. Qed.

Lemma runSchedule_keeps_exists (sched : Schedule) :
  forall pc, existsFlag pc = true -> existsFlag (runSchedule sched pc) = true.
Proof.
  induction sched as [|[op rt] sched IH]; intros pc Hpc.
  - exact Hpc.
  - apply IH. now apply Execute_keeps_exists.
Qed.

(** C2.  The cluster-existence flag is monotone within a run.  Take any
    interleaving of steps (the probe, the access-address computation, the
    config generation and refresh, and the remaining consumers as well),
    on any hosts and with any answers from the collaborators, and cut it
    anywhere: if [clusterExist] is [true] after the part [before], it is
    [true] again after any continuation [after]. *)
Theorem clusterExist_monotone (before after : Schedule)
        (pc : PipelineCache) :
  existsFlag (runSchedule before pc) = true ->
  existsFlag (runSchedule (before ++ after) pc) = true.
Proof.
  intros H. rewrite runSchedule_app.
  now apply runSchedule_keeps_exists.
Qed.

(** ** Rendering the configuration *)

Lemma RefreshConfig_frame (ToExisting : bool) (rt : Runtime)
      (pc : PipelineCache) :
  pipelineCache (RefreshConfig_Execute ToExisting rt pc) = pc
  /\ hostCache (RefreshConfig_Execute ToExisting rt pc)
     = GetCache (RemoteHost rt)
  /\ Forall isRender (effects (RefreshConfig_Execute ToExisting rt pc)).
Proof.
  unfold RefreshConfig_Execute.
  destruct (ETCDName (GetCache (RemoteHost rt))) as [n|];
    [|repeat split; constructor].
  destruct pc as [c|]; [|repeat split; constructor].
  destruct ToExisting, (negb (clusterExist c));
    cbn; repeat split; repeat constructor.
Qed.

(** C10.  [RefreshConfig] is a pure re-render as far as the shared state
    goes: for every host, every [ToExisting] and every pipeline cache, the
    cache after the step is the cache before it (same [peerAddresses],
    [clusterExist] and [accessAddresses]), the host's cache is untouched,
    and the only thing the step asks of its collaborators is a template
    render.  Hence any number of refreshes, on any hosts, leaves the peer
    list exactly as long as it was. *)
Theorem RefreshConfig_leaves_cluster_unchanged :
  (forall (ToExisting : bool) (rt : Runtime) (pc : PipelineCache),
      let out := RefreshConfig_Execute ToExisting rt pc in
      pipelineCache out = pc
      /\ hostCache out = GetCache (RemoteHost rt)
      /\ Forall isRender (effects out))
  /\ (forall (steps : list (bool * Runtime)) (pc : PipelineCache),
         runSchedule (refreshSteps steps) pc = pc).
Proof.
  split.
  - intros. apply RefreshConfig_frame.
  - induction steps as [|[b rt] steps IH]; intros pc.
    + reflexivity.
    + cbn. destruct (RefreshConfig_frame b rt pc) as (-> & _).
      apply IH.
Qed.

(** C5.  A refresh with [ToExisting] set renders with the token
    ["existing"], whatever [clusterExist] says: for a host whose member
    name has been recorded and any shared cluster value, the step asks for
    exactly one render, whose [State] is ["existing"] and whose peer list
    is the comma-join of the current [peerAddresses]; the step's result is
    the renderer's. *)
Theorem RefreshConfig_ToExisting_forces_existing
        (rt : Runtime) (cluster : EtcdCluster) (etcdName : string) :
  ETCDName (GetCache (RemoteHost rt)) = Some etcdName ->
  let out := RefreshConfig_Execute true rt (Some cluster) in
  exists t,
    effects out = [ERender t]
    /\ State (Data t) = "existing"
    /\ Name (Data t) = etcdName
    /\ peerAddressesField (Data t)
       = strings.Join (peerAddresses cluster) ","
    /\ err out = RenderTemplate (GetRunner rt) t.
Proof.
  intros Hn. unfold RefreshConfig_Execute. rewrite Hn.
  destruct (refreshConfig_effects rt (peerAddresses cluster) ExistCluster
                                  etcdName)
    as (t & -> & Hs & Hname & Hp).
  exists t. cbn. repeat split; assumption.
Qed.

(** C4.  [GenerateConfig] on a host whose member name is recorded, with
    the shared cluster value present: the step asks for exactly one
    render; its token is ["new"] exactly when [clusterExist] is [false] at
    that moment and ["existing"] exactly when it is [true]; and the peer
    list it renders is the comma-join of the whole accumulated list, this
    host's own entry included, which is also the list the step leaves in
    the shared value. *)
Theorem GenerateConfig_token_and_peers
        (rt : Runtime) (cluster : EtcdCluster) (etcdName : string) :
  ETCDName (GetCache (RemoteHost rt)) = Some etcdName ->
  let out := GenerateConfig_Execute rt (Some cluster) in
  let accumulated :=
    peerAddresses cluster ++ [peerEntry etcdName (RemoteHost rt)] in
  exists t,
    effects out = [ERender t]
    /\ (State (Data t) = "new" <-> clusterExist cluster = false)
    /\ (State (Data t) = "existing" <-> clusterExist cluster = true)
    /\ peerAddressesField (Data t) = strings.Join accumulated ","
    /\ peersOf (pipelineCache out) = accumulated
    /\ existsFlag (pipelineCache out) = clusterExist cluster
    /\ err out = RenderTemplate (GetRunner rt) t.
Proof.
  intros Hn. unfold GenerateConfig_Execute. rewrite Hn.
  cbn [clusterExist peerAddresses].
  destruct (clusterExist cluster) eqn:Hc; cbn [negb].
  - destruct (refreshConfig_effects
                rt (peerAddresses cluster
                      ++ [peerEntry etcdName (RemoteHost rt)])
                ExistCluster etcdName)
      as (t & -> & Hs & _ & Hp).
    exists t. cbn. rewrite Hs. repeat split; try assumption;
      try discriminate; try reflexivity.
  - destruct (refreshConfig_effects
                rt (peerAddresses cluster
                      ++ [peerEntry etcdName (RemoteHost rt)])
                NewCluster etcdName)
      as (t & -> & Hs & _ & Hp).
    exists t. cbn. rewrite Hs. repeat split; try assumption;
      try discriminate; try reflexivity.
Qed.

(** ** Consumers of the shared state *)

Lemma consumer_without_cluster (op : Op) (rt : Runtime) :
  In op consumers ->
  err (Execute op rt None) <> None
  /\ effects (Execute op rt None) = []
  /\ pipelineCache (Execute op rt None) = None
  /\ hostCache (Execute op rt None) = GetCache (RemoteHost rt).
Proof.
  intros Hin.
  repeat (destruct Hin as [<-|Hin]); try contradiction; cbn;
    unfold GenerateConfig_Execute, RefreshConfig_Execute,
      JoinMember_Execute;
    try destruct (ETCDName (GetCache (RemoteHost rt)));
    repeat split; discriminate.
Qed.

(** C7.  Every step that consumes the shared cluster state
    ([GenerateAccessAddress], [HealthCheck], [GenerateConfig],
    [RefreshConfig] with either value of [ToExisting], [JoinMember],
    [CheckMember]) fails when the pipeline cache has no cluster entry: it
    returns an error, asks nothing of the runner (no command, no render,
    so no token at all is chosen), and leaves both caches as they were. *)
Theorem consumers_fail_without_cluster (rt : Runtime) :
  Forall (fun op =>
            let out := Execute op rt None in
            err out <> None
            /\ effects out = []
            /\ pipelineCache out = None
            /\ hostCache out = GetCache (RemoteHost rt))
         consumers.
Proof.
  apply Forall_forall. intros op Hin.
  now apply consumer_without_cluster.
Qed.

(** ** Health check and membership check *)

Lemma healthCheck_result (rt : Runtime) (cluster : EtcdCluster) :
  let cmd := checkHealthCmd (RemoteHost rt) cluster in
  healthCheck rt cluster
  = ([ESudoCmd cmd false],
     errors.Wrap (errors.WithStack (snd (SudoCmd (GetRunner rt) cmd false)))
                 "etcd health check failed").
Proof.
  cbv zeta. unfold healthCheck.
  destruct (SudoCmd (GetRunner rt) (checkHealthCmd (RemoteHost rt) cluster)
                    false) as [s [e|]]; reflexivity.
Qed.

(** C9, as the code has it.  The health check has no test of its own on
    [accessAddresses].  With an empty [accessAddresses] it still issues its
    one command, whose [--endpoints=] option then carries no address, and
    it returns an error exactly when that command fails, wrapping the
    command's error. *)
Theorem HealthCheck_empty_access_follows_command
        (rt : Runtime) (cluster : EtcdCluster) :
  accessAddresses cluster = "" ->
  let host := RemoteHost rt in
  let out := HealthCheck_Execute rt (Some cluster) in
  let cmd :=
    (etcdctlEnv host ++ BinDir
       ++ "/etcdctl --endpoints= cluster-health"
       ++ " | grep -q 'cluster is healthy'")%string in
  effects out = [ESudoCmd cmd false]
  /\ err out
     = errors.Wrap (errors.WithStack (snd (SudoCmd (GetRunner rt) cmd false)))
                   "etcd health check failed"
  /\ (err out = None <-> snd (SudoCmd (GetRunner rt) cmd false) = None)
  /\ pipelineCache out = Some cluster.
Proof.
  intros Ha. cbv zeta. unfold HealthCheck_Execute.
  rewrite healthCheck_result. cbv zeta.
  unfold checkHealthCmd. rewrite Ha. cbn [append].
  repeat split; try reflexivity; cbn [err].
  - destruct (snd _); [discriminate | reflexivity].
  - intros ->. reflexivity.
Qed.

Lemma CheckMember_listed_or_not (rt : Runtime) (cluster : EtcdCluster)
      (memberList : string) :
  SudoCmd (GetRunner rt) (checkMemberCmd (RemoteHost rt) cluster) true
  = (memberList, None) ->
  err (CheckMember_Execute rt (Some cluster)) = None.
Proof.
  intros Hc. unfold CheckMember_Execute. rewrite Hc. cbn [err].
  now destruct (strings.Contains memberList (clientEndpoint (RemoteHost rt))).
Qed.

(** C3, as the code has it.  Whenever the member listing itself
    succeeds and its output does not contain the host's client endpoint
    ["https://{internalAddress}:2379"], [CheckMember] issues its one listing
    command and reports no error: the error it means to return is
    [errors.Wrap] of the listing's [err], which is nil on this path, and
    [Wrap] of nil is nil. *)
Theorem CheckMember_absent_endpoint_reports_success
        (rt : Runtime) (cluster : EtcdCluster) (memberList : string) :
  SudoCmd (GetRunner rt) (checkMemberCmd (RemoteHost rt) cluster) true
  = (memberList, None) ->
  strings.Contains memberList (clientEndpoint (RemoteHost rt)) = false ->
  effects (CheckMember_Execute rt (Some cluster))
  = [ESudoCmd (checkMemberCmd (RemoteHost rt) cluster) true]
  /\ err (CheckMember_Execute rt (Some cluster)) = None.
Proof.
  intros Hc _. split.
  - unfold CheckMember_Execute. now rewrite Hc.
  - exact (CheckMember_listed_or_not rt cluster memberList Hc).
Qed.

(** ** The certificate file list *)

Lemma fold_left_append {A B : Type} (f : B -> list A) (l : list B) :
  forall (g : list A -> B -> list A) (acc : list A),
    (forall acc b, g acc b = acc ++ f b) ->
    fold_left g l acc = acc ++ flat_map f l.
Proof.
  induction l as [|b l IH]; intros g acc Hg; simpl.
  - now rewrite app_nil_r.
  - rewrite (IH g _ Hg), Hg, <- app_assoc. reflexivity.
Qed.

Lemma generateCertsFiles_flat (rt : Runtime) :
  generateCertsFiles rt
  = "ca.pem" :: "ca-key.pem"
      :: flat_map memberFiles (HostsETCD rt)
      ++ flat_map nodeFiles (HostsMaster rt).
Proof.
  unfold generateCertsFiles. cbv zeta.
  rewrite (fold_left_append nodeFiles).
  - rewrite (fold_left_append memberFiles).
    + reflexivity.
    + intros acc b. unfold memberFiles.
      now rewrite <- !app_assoc.
  - intros acc b. unfold nodeFiles. now rewrite <- !app_assoc.
Qed.

Lemma append_inv_head (p a b : string) :
  (p ++ a = p ++ b)%string -> a = b.
Proof.
  induction p as [|c p IH]; simpl; intros H; [exact H|].
  injection H as H. now apply IH.
Qed.

Lemma pem_is_key (a b : string) :
  (a ++ ".pem" = b ++ "-key.pem")%string -> a = (b ++ "-key")%string.
Proof.
  intros H. apply append_inv_tail with (s := ".pem").
  rewrite H, <- append_assoc. reflexivity.
Qed.

Lemma not_own_key (a : string) : a <> (a ++ "-key")%string.
Proof. apply append_self_neq. discriminate. Qed.

(** Decide an equation between two file names of the scheme: different
    leading bytes, same scheme (same host name), or a certificate against
    a key (one host name is the other followed by ["-key"]). *)
Ltac file_eq H :=
  first
    [ discriminate H
    | apply append_inv_head in H;
      first [ apply append_inv_tail in H
            | apply pem_is_key in H
            | symmetry in H; apply pem_is_key in H ] ].

Ltac distinct_files :=
  cbn [In]; intros Hin;
  repeat (destruct Hin as [Hin|Hin];
          [file_eq Hin; try (now apply not_own_key in Hin)|]);
  try contradiction.

Lemma memberFiles_NoDup (h : Host) : NoDup (memberFiles h).
Proof.
  unfold memberFiles.
  repeat (constructor; [distinct_files|]).
  constructor.
Qed.

Lemma nodeFiles_NoDup (h : Host) : NoDup (nodeFiles h).
Proof.
  unfold nodeFiles.
  repeat (constructor; [distinct_files|]).
  constructor.
Qed.

Ltac shared_file Hx :=
  cbn [In] in Hx;
  repeat (destruct Hx as [Hx|Hx];
          [ file_eq Hx;
            first [ now left
                  | now (right; left)
                  | now (right; right)
                  | now (left; symmetry)
                  | now (right; left; symmetry)
                  | now (right; right; symmetry) ]
          | ]);
  try contradiction.

Lemma memberFiles_shared (a b : Host) (x : string) :
  In x (memberFiles a) -> In x (memberFiles b) ->
  namesCollide (GetName a) (GetName b).
Proof.
  unfold memberFiles, namesCollide. cbn [In]. intros Ha Hb.
  repeat (destruct Ha as [Ha|Ha]; [subst x; shared_file Hb|]).
  contradiction.
Qed.

Lemma nodeFiles_shared (a b : Host) (x : string) :
  In x (nodeFiles a) -> In x (nodeFiles b) ->
  namesCollide (GetName a) (GetName b).
Proof.
  unfold nodeFiles, namesCollide. cbn [In]. intros Ha Hb.
  repeat (destruct Ha as [Ha|Ha]; [subst x; shared_file Hb|]).
  contradiction.
Qed.

Lemma member_not_node (a b : Host) (x : string) :
  In x (memberFiles a) -> ~ In x (nodeFiles b).
Proof.
  unfold memberFiles, nodeFiles. cbn [In]. intros Ha Hb.
  repeat (destruct Ha as [Ha|Ha]; [subst x; shared_file Hb|]).
  contradiction.
Qed.

Lemma ca_not_member (h : Host) (x : string) :
  In x ["ca.pem"; "ca-key.pem"] -> ~ In x (memberFiles h).
Proof.
  unfold memberFiles. cbn [In]. intros Ha Hb.
  repeat (destruct Ha as [Ha|Ha]; [subst x; shared_file Hb|]).
  contradiction.
Qed.

Lemma ca_not_node (h : Host) (x : string) :
  In x ["ca.pem"; "ca-key.pem"] -> ~ In x (nodeFiles h).
Proof.
  unfold nodeFiles. cbn [In]. intros Ha Hb.
  repeat (destruct Ha as [Ha|Ha]; [subst x; shared_file Hb|]).
  contradiction.
Qed.

Lemma keyFree_tail (n : string) (names : list string) :
  keyFree (n :: names) -> keyFree names.
Proof.
  intros H a b Ha Hb. apply H; now right.
Qed.

Lemma NoDup_flat_map_files (f : Host -> list string) (hosts : list Host) :
  (forall h, NoDup (f h)) ->
  (forall a b x, In x (f a) -> In x (f b) ->
                 namesCollide (GetName a) (GetName b)) ->
  NoDup (map GetName hosts) ->
  keyFree (map GetName hosts) ->
  NoDup (flat_map f hosts).
Proof.
  intros Hf Hshared.
  induction hosts as [|h hosts IH]; intros Hnd Hkf.
  - constructor.
  - cbn [flat_map]. apply NoDup_app.
    + apply Hf.
    + apply IH.
      * now inversion Hnd.
      * now apply keyFree_tail in Hkf.
    + intros x Hx Hin.
      apply in_flat_map in Hin. destruct Hin as (b & Hb & Hxb).
      pose proof (in_map GetName _ _ Hb) as Hbn.
      destruct (Hshared _ _ _ Hx Hxb) as [E|[E|E]].
      * inversion Hnd as [|? ? Hnotin _]; subst.
        apply Hnotin. cbn [map] in *. now rewrite E.
      * apply (Hkf (GetName h) (GetName b)); [now left | now right | exact E].
      * apply (Hkf (GetName b) (GetName h)); [now right | now left | exact E].
Qed.

Lemma generateCertsFiles_NoDup (rt : Runtime) :
  NoDup (map GetName (HostsETCD rt)) ->
  NoDup (map GetName (HostsMaster rt)) ->
  keyFree (map GetName (HostsETCD rt)) ->
  keyFree (map GetName (HostsMaster rt)) ->
  NoDup (generateCertsFiles rt).
Proof.
  intros He Hm Ke Km. rewrite generateCertsFiles_flat.
  change ("ca.pem" :: "ca-key.pem"
            :: flat_map memberFiles (HostsETCD rt)
            ++ flat_map nodeFiles (HostsMaster rt))
    with (["ca.pem"; "ca-key.pem"]
            ++ flat_map memberFiles (HostsETCD rt)
            ++ flat_map nodeFiles (HostsMaster rt)).
  apply NoDup_app.
  - repeat (constructor; [distinct_files|]). constructor.
  - apply NoDup_app.
    + apply NoDup_flat_map_files;
        [ apply memberFiles_NoDup | apply memberFiles_shared
        | assumption | assumption ].
    + apply NoDup_flat_map_files;
        [ apply nodeFiles_NoDup | apply nodeFiles_shared
        | assumption | assumption ].
    + intros x Hx Hn.
      apply in_flat_map in Hx. destruct Hx as (a & _ & Hxa).
      apply in_flat_map in Hn. destruct Hn as (b & _ & Hxb).
      exact (member_not_node _ _ _ Hxa Hxb).
  - intros x Hx Hin. apply in_app_or in Hin. destruct Hin as [Hin|Hin].
    + apply in_flat_map in Hin. destruct Hin as (a & _ & Hxa).
      exact (ca_not_member _ _ Hx Hxa).
    + apply in_flat_map in Hin. destruct Hin as (a & _ & Hxa).
      exact (ca_not_node _ _ Hx Hxa).
Qed.

Lemma generateCertsFiles_length (rt : Runtime) :
  length (generateCertsFiles rt)
  = 2 + 4 * length (HostsETCD rt) + 2 * length (HostsMaster rt).
Proof.
  rewrite generateCertsFiles_flat. cbn [length].
  rewrite length_app.
  assert (Hm : forall l, length (flat_map memberFiles l) = 4 * length l).
  { induction l as [|h l IH]; [reflexivity|].
    cbn [flat_map length]. rewrite length_app, IH. cbn [memberFiles length].
    lia. }
  assert (Hn : forall l, length (flat_map nodeFiles l) = 2 * length l).
  { induction l as [|h l IH]; [reflexivity|].
    cbn [flat_map length]. rewrite length_app, IH. cbn [nodeFiles length].
    lia. }
  rewrite Hm, Hn. lia.
Qed.

Lemma generateCertsFiles_Permutation (rt rt' : Runtime) :
  Permutation (HostsETCD rt) (HostsETCD rt') ->
  Permutation (HostsMaster rt) (HostsMaster rt') ->
  Permutation (generateCertsFiles rt) (generateCertsFiles rt').
Proof.
  intros He Hm. rewrite !generateCertsFiles_flat.
  do 2 apply perm_skip.
  apply Permutation_app; now apply Permutation_flat_map.
Qed.

Lemma generateCertsFiles_In (rt : Runtime) (f : string) :
  In f (generateCertsFiles rt)
  <-> f = "ca.pem" \/ f = "ca-key.pem"
      \/ (exists h, In h (HostsETCD rt) /\ In f (memberFiles h))
      \/ (exists h, In h (HostsMaster rt) /\ In f (nodeFiles h)).
Proof.
  rewrite generateCertsFiles_flat. cbn [In].
  rewrite in_app_iff, !in_flat_map.
  intuition auto.
Qed.

(** C6, as the code has it.  The file list is a function of the two role
    lists alone, and permuting either list permutes the result, so the set
    of file names stays the same.  The list holds [ca.pem] and
    [ca-key.pem], the four [admin-]/[member-] files of every member-role
    host, the two [node-] files of every control-plane-role host, and
    nothing else; it has [2 + 4 * members + 2 * control-planes] entries,
    which is 12 for two member-role hosts and one control-plane host.  The
    entries are pairwise distinct when, within each role list, the host
    names are pairwise distinct and none is another one followed by
    ["-key"]. *)
Theorem generateCertsFiles_order_independent (rt rt' : Runtime) :
  Permutation (HostsETCD rt) (HostsETCD rt') ->
  Permutation (HostsMaster rt) (HostsMaster rt') ->
  Permutation (generateCertsFiles rt) (generateCertsFiles rt')
  /\ (forall f, In f (generateCertsFiles rt) <-> In f (generateCertsFiles rt'))
  /\ (forall f,
         In f (generateCertsFiles rt)
         <-> f = "ca.pem" \/ f = "ca-key.pem"
             \/ (exists h, In h (HostsETCD rt) /\ In f (memberFiles h))
             \/ (exists h, In h (HostsMaster rt) /\ In f (nodeFiles h)))
  /\ length (generateCertsFiles rt)
     = 2 + 4 * length (HostsETCD rt) + 2 * length (HostsMaster rt)
  /\ (length (HostsETCD rt) = 2 -> length (HostsMaster rt) = 1 ->
      length (generateCertsFiles rt) = 12)
  /\ (NoDup (map GetName (HostsETCD rt)) ->
      NoDup (map GetName (HostsMaster rt)) ->
      keyFree (map GetName (HostsETCD rt)) ->
      keyFree (map GetName (HostsMaster rt)) ->
      NoDup (generateCertsFiles rt)).
Proof.
  intros He Hm.
  pose proof (generateCertsFiles_Permutation rt rt' He Hm) as HP.
  split; [exact HP|].
  split.
  { intros f. split; apply Permutation_in;
      [exact HP | now apply Permutation_sym]. }
  split; [apply generateCertsFiles_In|].
  split; [apply generateCertsFiles_length|].
  split.
  { intros H2 H1. rewrite generateCertsFiles_length, H2, H1. reflexivity. }
  apply generateCertsFiles_NoDup.
Qed.

(** ** Accumulation of the peer list *)

Lemma GetStatus_succeeds (rt : Runtime) (pc : PipelineCache) :
  probeSucceeds rt ->
  err (GetStatus_Execute rt pc) = None
  /\ hostCache (GetStatus_Execute rt pc)
     = SetETCDExist (SetETCDName (GetCache (RemoteHost rt)) (probedName rt))
                    (markerPresent rt)
  /\ pipelineCache (GetStatus_Execute rt pc) = afterProbe pc rt.
Proof.
  unfold probeSucceeds, afterProbe, entryOf, probedName, markerPresent.
  destruct (FileExist (GetRunner rt) etcdEnvPath) as [b o] eqn:Hf.
  cbn [fst snd]. intros [-> Hread].
  destruct b.
  - destruct (SudoCmd (GetRunner rt) readNameCmd true) as [s o] eqn:Hc.
    cbn [fst snd] in *. rewrite (Hread eq_refl) in Hc.
    rewrite (GetStatus_marker rt pc s Hf Hc). repeat split.
  - rewrite (GetStatus_no_marker rt pc Hf). repeat split.
Qed.

Lemma afterProbe_peers (pc : PipelineCache) (rt : Runtime) :
  peersOf (afterProbe pc rt)
  = peersOf pc ++ (if markerPresent rt then [entryOf rt] else []).
Proof.
  unfold afterProbe. destruct (markerPresent rt); [reflexivity|].
  destruct pc; cbn; now rewrite ?app_nil_r.
Qed.

Lemma afterProbe_present (pc : PipelineCache) (rt : Runtime) :
  afterProbe pc rt <> None.
Proof.
  unfold afterProbe. destruct (markerPresent rt), pc; discriminate.
Qed.

Lemma GenerateConfig_succeeds (rt : Runtime) (c : EtcdCluster)
      (etcdName : string) :
  ETCDName (GetCache (RemoteHost rt)) = Some etcdName ->
  renderSucceeds rt ->
  err (GenerateConfig_Execute rt (Some c)) = None
  /\ hostCache (GenerateConfig_Execute rt (Some c)) = GetCache (RemoteHost rt)
  /\ pipelineCache (GenerateConfig_Execute rt (Some c))
     = Some {| clusterExist := clusterExist c;
               accessAddresses := accessAddresses c;
               peerAddresses :=
                 peerAddresses c ++ [peerEntry etcdName (RemoteHost rt)] |}.
Proof.
  intros Hn Hr. unfold GenerateConfig_Execute, refreshConfig. rewrite Hn.
  cbn [clusterExist peerAddresses].
  destruct (negb (clusterExist c)); cbn; rewrite Hr; repeat split.
Qed.

Lemma visits_ordered (rts : list Runtime) :
  Forall probeSucceeds rts ->
  Forall renderSucceeds rts ->
  forall (sched : list (Op * nat)) (run : Run) (done : list nat),
    recorded rts run done ->
    (done <> [] -> shared run <> None) ->
    ordered (length rts) done sched ->
    exists run',
      visits rts sched run = (run', None)
      /\ peersOf (shared run')
         = peersOf (shared run) ++ flat_map (contribution rts) sched.
Proof.
  intros Hp Hr.
  induction sched as [|[op i] rest IH]; intros run done Hdone Hshared Hord.
  - exists run. cbn. now rewrite app_nil_r.
  - destruct op; cbn [ordered] in Hord; try contradiction.
    + (* the probe of host [i] *)
      destruct Hord as (Hi & Hord).
      destruct (nth_error rts i) as [rt|] eqn:Hrt;
        [|apply nth_error_None in Hrt; lia].
      assert (Hprt : probeSucceeds (hostAt run i rt)).
      { apply nth_error_In in Hrt.
        exact (proj1 (Forall_forall _ _) Hp rt Hrt). }
      destruct (GetStatus_succeeds (hostAt run i rt) (shared run) Hprt)
        as (He & Hh & Hpc).
      cbn [visits]. unfold visit. cbn [fst snd]. rewrite Hrt.
      cbn [Execute]. rewrite He, Hh, Hpc.
      match goal with
      | |- context [visits rts rest ?r] =>
          destruct (IH r (i :: done)) as (run' & Hrun & Hpeers)
      end.
      * intros j Hj. cbn [caches].
        destruct (Nat.eqb_spec j i) as [->|Hne].
        -- exists rt. split; [exact Hrt | reflexivity].
        -- destruct Hj as [Hj|Hj]; [congruence|]. now apply Hdone.
      * intros _. cbn [shared]. apply afterProbe_present.
      * exact Hord.
      * exists run'. split; [exact Hrun|].
        rewrite Hpeers. cbn [shared flat_map].
        rewrite afterProbe_peers, <- app_assoc.
        unfold contribution. cbn [fst snd]. rewrite Hrt. reflexivity.
    + (* the config generation on host [i] *)
      destruct Hord as (Hi & Hin & Hord).
      destruct (Hdone i Hin) as (rt & Hrt & Hname).
      destruct (shared run) as [c|] eqn:Hc;
        [|exfalso; apply Hshared; [intros ->; contradiction | reflexivity]].
      assert (Hrrt : renderSucceeds (hostAt run i rt)).
      { apply nth_error_In in Hrt.
        exact (proj1 (Forall_forall _ _) Hr rt Hrt). }
      destruct (GenerateConfig_succeeds (hostAt run i rt) c
                                        (probedName rt) Hname Hrrt)
        as (He & Hh & Hpc).
      cbn [visits]. unfold visit. cbn [fst snd]. rewrite Hrt, Hc.
      cbn [Execute]. rewrite He, Hh, Hpc.
      match goal with
      | |- context [visits rts rest ?r] =>
          destruct (IH r done) as (run' & Hrun & Hpeers)
      end.
      * intros j Hj. cbn [caches].
        destruct (Nat.eqb_spec j i) as [->|Hne]; [|now apply Hdone].
        exists rt. split; [exact Hrt | exact Hname].
      * intros _. discriminate.
      * exact Hord.
      * exists run'. split; [exact Hrun|].
        rewrite Hpeers. cbn [shared peersOf peerAddresses flat_map].
        rewrite <- app_assoc.
        unfold contribution. cbn [fst snd]. rewrite Hrt. reflexivity.
Qed.

Lemma hostsOf_seq (l : list Runtime) : forall pre : list Runtime,
  hostsOf (pre ++ l) (seq (length pre) (length l)) = l.
Proof.
  induction l as [|rt l IH]; intros pre; [reflexivity|].
  cbn [length seq hostsOf flat_map].
  rewrite nth_error_app2 by lia. rewrite Nat.sub_diag. cbn [nth_error app].
  f_equal.
  specialize (IH (pre ++ [rt])).
  rewrite <- app_assoc, length_app in IH. cbn [length app] in IH.
  rewrite Nat.add_1_r in IH. exact IH.
Qed.

Lemma hostsOf_all (rts : list Runtime) (idx : list nat) :
  Permutation idx (seq 0 (length rts)) ->
  Permutation (hostsOf rts idx) rts.
Proof.
  intros H. rewrite <- (hostsOf_seq rts []) at 2. cbn [app length].
  unfold hostsOf. now apply Permutation_flat_map.
Qed.

Lemma filter_length_Permutation {A : Type} (f : A -> bool) (l l' : list A) :
  Permutation l l' -> length (filter f l) = length (filter f l').
Proof.
  induction 1 as [|x l l' _ IH|x y l|l l' l'' _ IH1 _ IH2]; cbn [filter].
  - reflexivity.
  - destruct (f x); cbn [length]; now rewrite IH.
  - destruct (f x), (f y); reflexivity.
  - now rewrite IH1.
Qed.

Lemma hostsOf_cons (rts : list Runtime) (i : nat) (idx : list nat) :
  hostsOf rts (i :: idx)
  = match nth_error rts i with
    | Some rt => [rt]
    | None => []
    end ++ hostsOf rts idx.
Proof. reflexivity. Qed.

Lemma contribution_length (rts : list Runtime) :
  forall (sched : list (Op * nat)) (done : list nat),
    ordered (length rts) done sched ->
    length (flat_map (contribution rts) sched)
    = length (filter markerPresent (hostsOf rts (probes sched)))
      + length (hostsOf rts (configs sched)).
Proof.
  induction sched as [|[op i] rest IH]; intros done Hord; [reflexivity|].
  destruct op; cbn [ordered] in Hord; try contradiction.
  - destruct Hord as (Hi & Hord).
    cbn [flat_map]. rewrite length_app, (IH _ Hord).
    unfold probes, configs, contribution.
    cbn [filter isGetStatus isGenerateConfig fst snd map].
    rewrite hostsOf_cons.
    destruct (nth_error rts i) as [rt|]; [|reflexivity].
    cbn [app filter]. destruct (markerPresent rt); reflexivity.
  - destruct Hord as (Hi & _ & Hord).
    cbn [flat_map]. rewrite length_app, (IH _ Hord).
    unfold probes, configs, contribution.
    cbn [filter isGetStatus isGenerateConfig fst snd map].
    rewrite hostsOf_cons.
    destruct (nth_error rts i) as [rt|] eqn:Hrt;
      [|apply nth_error_None in Hrt; lia].
    cbn [app length]. lia.
Qed.

Lemma contribution_no_marker (rts : list Runtime) :
  filter markerPresent rts = [] ->
  forall (sched : list (Op * nat)) (done : list nat),
    ordered (length rts) done sched ->
    flat_map (contribution rts) sched
    = map entryOf (hostsOf rts (configs sched)).
Proof.
  intros Hnone.
  assert (Hno : forall rt, In rt rts -> markerPresent rt = false).
  { intros rt Hin. destruct (markerPresent rt) eqn:E; [|reflexivity].
    assert (Hf : In rt (filter markerPresent rts))
      by (apply filter_In; now split).
    rewrite Hnone in Hf. contradiction. }
  induction sched as [|[op i] rest IH]; intros done Hord; [reflexivity|].
  destruct op; cbn [ordered] in Hord; try contradiction.
  - destruct Hord as (Hi & Hord).
    cbn [flat_map]. rewrite (IH _ Hord).
    unfold configs, contribution.
    cbn [filter isGenerateConfig fst snd].
    destruct (nth_error rts i) as [rt|] eqn:Hrt; [|reflexivity].
    now rewrite (Hno rt (nth_error_In _ _ Hrt)).
  - destruct Hord as (Hi & _ & Hord).
    cbn [flat_map]. rewrite (IH _ Hord).
    unfold configs, contribution.
    cbn [filter isGenerateConfig fst snd map].
    rewrite hostsOf_cons.
    destruct (nth_error rts i) as [rt|]; [|reflexivity].
    now rewrite map_app.
Qed.

(** A step never drops or reorders what the peer list holds: it leaves the
    list alone or appends one entry. *)
Lemma Execute_extends_peers (op : Op) (rt : Runtime) (pc : PipelineCache) :
  exists added,
    peersOf (pipelineCache (Execute op rt pc)) = peersOf pc ++ added
    /\ length added <= 1.
Proof.
  assert (Hsame : exists added : list string,
             peersOf pc = peersOf pc ++ added /\ length added <= 1).
  { exists []. rewrite app_nil_r. split; [reflexivity | cbn; lia]. }
  destruct op; cbn [Execute].
  - unfold GetStatus_Execute.
    destruct (FileExist (GetRunner rt) etcdEnvPath) as [[|] [e|]];
      cbn [pipelineCache]; try exact Hsame.
    + destruct (SudoCmd (GetRunner rt) readNameCmd true) as [s [e|]];
        cbn [pipelineCache]; try exact Hsame.
      destruct (slice_from s (strings.Index s "=" + 1));
        [|exact Hsame].
      destruct pc; cbn; eexists; split; try reflexivity; cbn; lia.
    + destruct pc; [exact Hsame|]. exists []. split; [reflexivity|cbn; lia].
  - unfold GenerateAccessAddress_Execute. destruct pc; exact Hsame.
  - unfold HealthCheck_Execute. destruct pc as [c|]; [|exact Hsame].
    destruct (healthCheck rt c). exact Hsame.
  - unfold GenerateConfig_Execute.
    destruct (ETCDName (GetCache (RemoteHost rt))); [|exact Hsame].
    destruct pc as [c|]; [|exact Hsame].
    match goal with
    | |- context [let '(_, _) := ?x in _] => destruct x
    end.
    cbn. eexists; split; [reflexivity | cbn; lia].
  - destruct (RefreshConfig_frame ToExisting rt pc) as (-> & _).
    exact Hsame.
  - unfold JoinMember_Execute.
    destruct (ETCDName (GetCache (RemoteHost rt))); [|exact Hsame].
    destruct pc as [c|]; [|exact Hsame].
    match goal with
    | |- context [let '(_, _) := ?x in _] => destruct x
    end.
    exact Hsame.
  - unfold CheckMember_Execute.
    destruct pc as [c|]; [|exact Hsame].
    match goal with
    | |- context [let '(_, _) := ?x in _] => destruct x
    end.
    exact Hsame.
Qed.

Lemma no_marker_names (rts : list Runtime) :
  (forall rt, In rt rts -> markerPresent rt = false) ->
  map probedName rts
  = map (fun rt => ("etcd-" ++ GetName (RemoteHost rt))%string) rts.
Proof.
  intros Hno. apply map_ext_in. intros rt Hin.
  unfold probedName. now rewrite (Hno rt Hin).
Qed.

Lemma synthesized_names_NoDup (rts : list Runtime) :
  NoDup (map (fun rt => GetName (RemoteHost rt)) rts) ->
  NoDup (map (fun rt => ("etcd-" ++ GetName (RemoteHost rt))%string) rts).
Proof.
  induction rts as [|rt rts IH]; cbn [map]; intros H.
  - constructor.
  - inversion H as [|? ? Hnotin Hrest]; subst.
    constructor; [|now apply IH].
    intros Hin. apply Hnotin.
    apply in_map_iff in Hin. destruct Hin as (rt2 & Heq & Hrt2).
    apply append_inv_head in Heq. rewrite <- Heq.
    apply in_map_iff. now exists rt2.
Qed.

Lemma start_recorded (rts : list Runtime) : recorded rts (start rts) [].
Proof. intros i []. Qed.

(** C1, as the code has it.  Take N hosts and any schedule that runs the
    probe once and the config generation once on each of them, the config
    generation of a host after its probe, every collaborator call
    succeeding.  The probe appends an entry for a host that carries the
    marker file, and the config generation appends an entry for every host,
    so the peer list is the concatenation of these contributions in schedule
    order and has N plus the number of marker hosts entries.  When no host
    carries the marker the list has exactly N entries, one per host in the
    order of the config generations, built from the member names
    ["etcd-" ++ host name], which are pairwise distinct when the host names
    are.  And no step of any kind removes or reorders entries: each leaves
    the list alone or appends one entry. *)
Theorem peerAddresses_accumulate
        (rts : list Runtime) (sched : list (Op * nat)) :
  Forall probeSucceeds rts ->
  Forall renderSucceeds rts ->
  ordered (length rts) [] sched ->
  Permutation (probes sched) (seq 0 (length rts)) ->
  Permutation (configs sched) (seq 0 (length rts)) ->
  let final := visits rts sched (start rts) in
  let peers := peersOf (shared (fst final)) in
  let configured := hostsOf rts (configs sched) in
  snd final = None
  /\ peers = flat_map (contribution rts) sched
  /\ length peers = length (filter markerPresent rts) + length rts
  /\ (filter markerPresent rts = [] ->
      peers = map entryOf configured
      /\ Permutation configured rts
      /\ length peers = length rts
      /\ map probedName configured
         = map (fun rt => ("etcd-" ++ GetName (RemoteHost rt))%string)
               configured
      /\ (NoDup (map (fun rt => GetName (RemoteHost rt)) rts) ->
          NoDup (map probedName configured)))
  /\ (forall op rt pc,
         exists added,
           peersOf (pipelineCache (Execute op rt pc)) = peersOf pc ++ added
           /\ length added <= 1).
Proof.
  intros Hp Hr Hord Hprobes Hconfigs. cbv zeta.
  destruct (visits_ordered rts Hp Hr sched (start rts) []
                           (start_recorded rts)
                           (fun H => False_ind _ (H eq_refl)) Hord)
    as (run' & Hrun & Hpeers).
  rewrite Hrun. cbn [fst snd]. cbn [start shared peersOf app] in Hpeers.
  pose proof (hostsOf_all rts (configs sched) Hconfigs) as Hall.
  assert (Hlen : length (peersOf (shared run'))
                 = length (filter markerPresent rts) + length rts).
  { rewrite Hpeers, (contribution_length rts sched [] Hord).
    rewrite (filter_length_Permutation
               markerPresent _ _ (hostsOf_all rts (probes sched) Hprobes)).
    now rewrite (Permutation_length Hall). }
  split; [reflexivity|]. split; [exact Hpeers|]. split; [exact Hlen|].
  split; [|apply Execute_extends_peers].
  intros Hnone.
  assert (Hno : forall rt, In rt (hostsOf rts (configs sched)) ->
                           markerPresent rt = false).
  { intros rt Hin. apply (Permutation_in _ Hall) in Hin.
    destruct (markerPresent rt) eqn:E; [|reflexivity].
    assert (Hf : In rt (filter markerPresent rts))
      by (apply filter_In; now split).
    rewrite Hnone in Hf. contradiction. }
  split.
  { rewrite Hpeers. exact (contribution_no_marker rts Hnone sched [] Hord). }
  split; [exact Hall|].
  split; [now rewrite Hlen, Hnone|].
  split; [now apply no_marker_names|].
  intros Hnd. rewrite (no_marker_names _ Hno).
  apply synthesized_names_NoDup.
  apply (Permutation_NoDup
           (Permutation_map (fun rt => GetName (RemoteHost rt))
                            (Permutation_sym Hall))).
  exact Hnd.
Qed.

(** ** Further properties of the steps *)

Lemma flat_map_singleton {A B : Type} (f : A -> B) (l : list A) :
  flat_map (fun a => [f a]) l = map f l.
Proof.
  induction l as [|a l IH]; [reflexivity|]. cbn. now rewrite IH.
Qed.

Lemma addrList_is_map (hosts : list Host) :
  fold_left (fun addrList host => addrList ++ [clientEndpoint host]) hosts []
  = map clientEndpoint hosts.
Proof.
  rewrite (fold_left_append (fun host => [clientEndpoint host]))
    by reflexivity.
  apply flat_map_singleton.
Qed.

(** X1.  With the shared value present, [GenerateAccessAddress] succeeds
    without asking anything of the runner and sets [accessAddresses] to the
    comma-join of ["https://{internalAddress}:2379"] over the member-role
    hosts in inventory order (the empty string when there are none),
    whatever the field held before; [clusterExist], [peerAddresses] and the
    host's cache stay as they were, and running the step again changes
    nothing. *)
Theorem GenerateAccessAddress_joins_endpoints
        (rt : Runtime) (cluster : EtcdCluster) :
  let out := GenerateAccessAddress_Execute rt (Some cluster) in
  err out = None
  /\ effects out = []
  /\ hostCache out = GetCache (RemoteHost rt)
  /\ pipelineCache out
     = Some {| clusterExist := clusterExist cluster;
               accessAddresses :=
                 strings.Join (map clientEndpoint (HostsETCD rt)) ",";
               peerAddresses := peerAddresses cluster |}
  /\ (HostsETCD rt = [] -> accessOf (pipelineCache out) = "")
  /\ GenerateAccessAddress_Execute rt (pipelineCache out) = out.
Proof.
  cbv zeta. unfold GenerateAccessAddress_Execute.
  rewrite addrList_is_map. cbn [pipelineCache clusterExist peerAddresses].
  repeat split.
  intros ->. reflexivity.
Qed.

Lemma afterProbe_flag (pc : PipelineCache) (rt : Runtime) :
  existsFlag (afterProbe pc rt) = existsFlag pc || markerPresent rt.
Proof.
  unfold afterProbe. destruct (markerPresent rt), pc as [c|]; cbn;
    now rewrite ?orb_true_r, ?orb_false_r.
Qed.

Lemma afterProbe_access (pc : PipelineCache) (rt : Runtime) :
  accessOf (afterProbe pc rt) = accessOf pc.
Proof.
  unfold afterProbe. now destruct (markerPresent rt), pc as [c|].
Qed.

Lemma probes_flag (rts : list Runtime) (pc : PipelineCache) :
  Forall probeSucceeds rts ->
  existsFlag (runSchedule (probesOf rts) pc)
  = existsFlag pc || existsb markerPresent rts
  /\ (rts <> [] -> runSchedule (probesOf rts) pc <> None)
  /\ accessOf (runSchedule (probesOf rts) pc) = accessOf pc.
Proof.
  intros Hp. revert pc.
  induction Hp as [|rt rts Hrt _ IH]; intros pc.
  - cbn. rewrite orb_false_r. repeat split. congruence.
  - destruct (GetStatus_succeeds rt pc Hrt) as (_ & _ & Hpc).
    cbn [probesOf map runSchedule fold_left fst snd Execute].
    rewrite Hpc.
    destruct (IH (afterProbe pc rt)) as (Hflag & Hsome & Hacc).
    fold (probesOf rts).
    change (fold_left
              (fun pc0 step =>
                 pipelineCache (Execute (fst step) (snd step) pc0))
              (probesOf rts) (afterProbe pc rt))
      with (runSchedule (probesOf rts) (afterProbe pc rt)).
    split; [|split].
    + rewrite Hflag, afterProbe_flag. cbn [existsb]. now rewrite orb_assoc.
    + intros _. destruct rts as [|rt2 rts].
      * cbn. apply afterProbe_present.
      * apply Hsome. discriminate.
    + now rewrite Hacc, afterProbe_access.
Qed.

(** X2.  After the probe has succeeded on each host of a list, in order,
    the shared value's [clusterExist] is what it was before or'ed with "some
    probed host carries the marker file"; in particular, from an empty
    pipeline cache it is [true] exactly when at least one host carries the
    marker.  The shared value is present as soon as one host was probed, and
    the probes leave [accessAddresses] alone. *)
Theorem probes_set_exists_iff_marker
        (rts : list Runtime) (pc : PipelineCache) :
  Forall probeSucceeds rts ->
  existsFlag (runSchedule (probesOf rts) pc)
  = existsFlag pc || existsb markerPresent rts
  /\ (rts <> [] -> runSchedule (probesOf rts) pc <> None)
  /\ accessOf (runSchedule (probesOf rts) pc) = accessOf pc.
Proof.
  exact (probes_flag rts pc).
Qed.

(** X3.  The probe fails only when the runner does.  It returns no error
    exactly when the existence check succeeds and, if the marker exists, the
    read succeeds too, whatever the read printed (empty output, output
    without ['='], output ending in ['=']: the slice is always in bounds).
    Any error it returns is the one the existence check or the read handed
    back, unwrapped, and then both caches are as before. *)
Theorem GetStatus_fails_only_with_runner
        (rt : Runtime) (pc : PipelineCache) :
  let out := GetStatus_Execute rt pc in
  (err out = None <-> probeSucceeds rt)
  /\ (forall e,
         err out = Some e ->
         (snd (FileExist (GetRunner rt) etcdEnvPath) = Some e
          \/ (FileExist (GetRunner rt) etcdEnvPath = (true, None)
              /\ snd (SudoCmd (GetRunner rt) readNameCmd true) = Some e))
         /\ hostCache out = GetCache (RemoteHost rt)
         /\ pipelineCache out = pc).
Proof.
  cbv zeta. split.
  - split; [|intros H; now destruct (GetStatus_succeeds rt pc H)].
    unfold probeSucceeds, markerPresent.
    destruct (FileExist (GetRunner rt) etcdEnvPath) as [b [e|]] eqn:Hf.
    + rewrite (GetStatus_probe_error rt pc b e Hf). discriminate.
    + destruct b.
      * destruct (SudoCmd (GetRunner rt) readNameCmd true) as [s [e|]] eqn:Hc.
        -- rewrite (GetStatus_read_error rt pc s e Hf Hc). discriminate.
        -- intros _. split; [reflexivity | intros _; reflexivity].
      * intros _. split; [reflexivity | discriminate].
  - intros e.
    destruct (FileExist (GetRunner rt) etcdEnvPath) as [b [e1|]] eqn:Hf.
    + rewrite (GetStatus_probe_error rt pc b e1 Hf). cbn.
      intros He. injection He as ->. repeat split. now left.
    + destruct b.
      * destruct (SudoCmd (GetRunner rt) readNameCmd true) as [s [e1|]] eqn:Hc.
        -- rewrite (GetStatus_read_error rt pc s e1 Hf Hc). cbn.
           intros He. injection He as ->. repeat split. now right.
        -- rewrite (GetStatus_marker rt pc s Hf Hc). discriminate.
      * rewrite (GetStatus_no_marker rt pc Hf). discriminate.
Qed.

Lemma Contains_eq_iff (s : string) :
  strings.Contains s "=" = false <-> afterFirstEq s = None.
Proof.
  unfold strings.Contains, strings.Index.
  pose proof (index_from_eq s 0) as H.
  destruct (afterFirstEq s) as [v|].
  - destruct H as (k & -> & _). split; [|discriminate].
    intros Hc. apply Z.leb_gt in Hc. lia.
  - rewrite H. split; reflexivity.
Qed.

Lemma afterFirstEq_key_value (key v : string) :
  afterFirstEq key = None ->
  afterFirstEq (key ++ "=" ++ v) = Some v.
Proof.
  induction key as [|c key IH]; cbn [afterFirstEq append]; intros H.
  - reflexivity.
  - destruct (Ascii.eqb c "="); [discriminate | now apply IH].
Qed.

(** X4.  How the probe reads the member name.  When the read prints
    [key=value] with no ['='] in [key], the recorded name is [value] as it
    stands, for every [value]: a value that is empty, that contains further
    ['='], or that ends in a line break is kept unchanged.  When the output
    has no ['='] at all, the whole output is the recorded name.  Either way
    the name recorded in the host's cache is the name of the peer entry the
    probe appends. *)
Theorem GetStatus_name_is_value (rt : Runtime) (pc : PipelineCache) :
  FileExist (GetRunner rt) etcdEnvPath = (true, None) ->
  let out := GetStatus_Execute rt pc in
  (forall key v,
      strings.Contains key "=" = false ->
      SudoCmd (GetRunner rt) readNameCmd true
      = ((key ++ "=" ++ v)%string, None) ->
      ETCDName (hostCache out) = Some v
      /\ peersOf (pipelineCache out)
         = peersOf pc ++ [peerEntry v (RemoteHost rt)])
  /\ (forall s,
         strings.Contains s "=" = false ->
         SudoCmd (GetRunner rt) readNameCmd true = (s, None) ->
         ETCDName (hostCache out) = Some s
         /\ peersOf (pipelineCache out)
            = peersOf pc ++ [peerEntry s (RemoteHost rt)]).
Proof.
  intros Hf. cbv zeta. split.
  - intros key v Hkey Hc.
    rewrite (GetStatus_marker rt pc _ Hf Hc).
    apply Contains_eq_iff in Hkey.
    unfold envValue. rewrite (afterFirstEq_key_value key v Hkey).
    split; reflexivity.
  - intros s Hs Hc.
    rewrite (GetStatus_marker rt pc _ Hf Hc).
    apply Contains_eq_iff in Hs.
    unfold envValue. rewrite Hs. split; reflexivity.
Qed.

Lemma reader_frame (op : Op) (rt : Runtime) (pc : PipelineCache) :
  In op readers ->
  pipelineCache (Execute op rt pc) = pc
  /\ hostCache (Execute op rt pc) = GetCache (RemoteHost rt)
  /\ length (effects (Execute op rt pc)) <= 1
  /\ renderedStates (effects (Execute op rt pc)) = [].
Proof.
  intros Hin.
  repeat (destruct Hin as [<-|Hin]); try contradiction; cbn [Execute].
  - unfold HealthCheck_Execute. destruct pc as [c|].
    + rewrite healthCheck_result. cbn. repeat split. lia.
    + cbn. repeat split. lia.
  - unfold JoinMember_Execute.
    destruct (ETCDName (GetCache (RemoteHost rt))) as [n|];
      [|cbn; repeat split; lia].
    destruct pc as [c|]; [|cbn; repeat split; lia].
    destruct (SudoCmd (GetRunner rt) (joinMemberCmd (RemoteHost rt) c n) true).
    cbn. repeat split. lia.
  - unfold CheckMember_Execute.
    destruct pc as [c|]; [|cbn; repeat split; lia].
    destruct (SudoCmd (GetRunner rt) (checkMemberCmd (RemoteHost rt) c) true).
    cbn. repeat split. lia.
Qed.

(** X5.  [HealthCheck], [JoinMember] and [CheckMember] only read the shared
    state: whatever the pipeline cache and the host's cache hold and
    whatever the runner answers, they leave both caches exactly as they
    were (a successful join is not recorded anywhere), issue at most one
    command and render nothing. *)
Theorem readers_leave_state_unchanged (rt : Runtime) (pc : PipelineCache) :
  Forall (fun op =>
            let out := Execute op rt pc in
            pipelineCache out = pc
            /\ hostCache out = GetCache (RemoteHost rt)
            /\ length (effects out) <= 1
            /\ renderedStates (effects out) = [])
         readers.
Proof.
  apply Forall_forall. intros op Hin. now apply reader_frame.
Qed.

(** X6.  [GenerateConfig], [RefreshConfig] (either [ToExisting]) and
    [JoinMember] read the member name from the host's cache first.  On a
    host that was never probed they return "get etcd node status by host
    label failed", whether or not the shared value is present, without
    rendering, without a command and without touching either cache; in
    particular [GenerateConfig] appends no peer entry for such a host. *)
Theorem steps_fail_without_name (rt : Runtime) (pc : PipelineCache) :
  ETCDName (GetCache (RemoteHost rt)) = None ->
  Forall (fun op =>
            let out := Execute op rt pc in
            err out
            = Some (errors.fundamental
                      "get etcd node status by host label failed")
            /\ effects out = []
            /\ pipelineCache out = pc
            /\ hostCache out = GetCache (RemoteHost rt))
         needName.
Proof.
  intros Hn. apply Forall_forall. intros op Hin.
  repeat (destruct Hin as [<-|Hin]); try contradiction; cbn [Execute];
    unfold GenerateConfig_Execute, RefreshConfig_Execute, JoinMember_Execute;
    rewrite Hn; repeat split.
Qed.

(** X7.  With the member name present, [JoinMember] issues exactly one
    command, the [member add] of this host's name and peer URL against
    [accessAddresses], and succeeds exactly when that command succeeds; a
    failure is the command's error wrapped with "add etcd member failed". *)
Theorem JoinMember_follows_command
        (rt : Runtime) (cluster : EtcdCluster) (etcdName : string) :
  ETCDName (GetCache (RemoteHost rt)) = Some etcdName ->
  let host := RemoteHost rt in
  let out := JoinMember_Execute rt (Some cluster) in
  let cmd :=
    (etcdctlEnv host ++ BinDir ++ "/etcdctl --endpoints="
       ++ accessAddresses cluster ++ " member add " ++ etcdName ++ " "
       ++ "https://" ++ GetInternalAddress host ++ ":2380")%string in
  effects out = [ESudoCmd cmd true]
  /\ err out
     = errors.Wrap (errors.WithStack (snd (SudoCmd (GetRunner rt) cmd true)))
                   "add etcd member failed"
  /\ (err out = None <-> snd (SudoCmd (GetRunner rt) cmd true) = None).
Proof.
  intros Hn. cbv zeta. unfold JoinMember_Execute. rewrite Hn.
  unfold joinMemberCmd.
  match goal with
  | |- context [SudoCmd (GetRunner rt) ?c true] =>
      destruct (SudoCmd (GetRunner rt) c true) as [s [e|]]
  end; cbn; repeat split; try discriminate.
Qed.

Lemma GenerateConfig_appends (rt : Runtime) (c : EtcdCluster)
      (etcdName : string) :
  ETCDName (GetCache (RemoteHost rt)) = Some etcdName ->
  pipelineCache (GenerateConfig_Execute rt (Some c))
  = Some {| clusterExist := clusterExist c;
            accessAddresses := accessAddresses c;
            peerAddresses :=
              peerAddresses c ++ [peerEntry etcdName (RemoteHost rt)] |}.
Proof.
  intros Hn. unfold GenerateConfig_Execute, refreshConfig. rewrite Hn.
  cbn [clusterExist peerAddresses].
  now destruct (negb (clusterExist c)).
Qed.

(** X8.  [GenerateConfig] appends the host's peer entry before it renders,
    so the entry is in the shared list whether or not the render then
    fails, and every further run on the same host appends the same entry
    once more: after [k] runs the list is the old one followed by [k]
    copies, with [clusterExist] and [accessAddresses] as before. *)
Theorem GenerateConfig_appends_each_run
        (rt : Runtime) (cluster : EtcdCluster) (etcdName : string)
        (k : nat) :
  ETCDName (GetCache (RemoteHost rt)) = Some etcdName ->
  runSchedule (repeat (OpGenerateConfig, rt) k) (Some cluster)
  = Some {| clusterExist := clusterExist cluster;
            accessAddresses := accessAddresses cluster;
            peerAddresses :=
              peerAddresses cluster
                ++ repeat (peerEntry etcdName (RemoteHost rt)) k |}.
Proof.
  intros Hn. revert cluster.
  induction k as [|k IH]; intros cluster.
  - cbn. rewrite app_nil_r. now destruct cluster.
  - cbn [repeat runSchedule fold_left fst snd Execute].
    rewrite (GenerateConfig_appends rt cluster etcdName Hn).
    change (fold_left
              (fun pc step =>
                 pipelineCache (Execute (fst step) (snd step) pc))
              (repeat (OpGenerateConfig, rt) k) ?x)
      with (runSchedule (repeat (OpGenerateConfig, rt) k) x).
    rewrite IH. cbn [clusterExist accessAddresses peerAddresses].
    now rewrite <- app_assoc.
Qed.

(** X9.  A refresh re-renders what [GenerateConfig] rendered.  Right after
    [GenerateConfig] on a host, [RefreshConfig] without [ToExisting] asks
    for the very same render (same destination, same data, the peer list
    including this host's entry), and with [ToExisting] for the same render
    except that the token is ["existing"]; neither appends to the peer
    list. *)
Theorem RefreshConfig_rerenders_generated
        (rt : Runtime) (cluster : EtcdCluster) (etcdName : string) :
  ETCDName (GetCache (RemoteHost rt)) = Some etcdName ->
  let out := GenerateConfig_Execute rt (Some cluster) in
  exists t,
    effects out = [ERender t]
    /\ effects (RefreshConfig_Execute false rt (pipelineCache out))
       = [ERender t]
    /\ effects (RefreshConfig_Execute true rt (pipelineCache out))
       = [ERender (withState t ExistCluster)]
    /\ pipelineCache (RefreshConfig_Execute false rt (pipelineCache out))
       = pipelineCache out
    /\ pipelineCache (RefreshConfig_Execute true rt (pipelineCache out))
       = pipelineCache out.
Proof.
  intros Hn. cbv zeta.
  rewrite (GenerateConfig_appends rt cluster etcdName Hn).
  unfold GenerateConfig_Execute, RefreshConfig_Execute, refreshConfig.
  rewrite Hn. cbn [clusterExist peerAddresses].
  destruct (clusterExist cluster); cbn; eexists; repeat split.
Qed.

Lemma renderedStates_app (l1 l2 : list Effect) :
  renderedStates (l1 ++ l2) = renderedStates l1 ++ renderedStates l2.
Proof. apply flat_map_app. Qed.

Lemma rendersByFlag_step (op : Op) (rt : Runtime) (pc : PipelineCache) :
  rendersByFlag (op, rt) ->
  existsFlag (pipelineCache (Execute op rt pc)) = existsFlag pc
  /\ Forall (fun s => s = tokenFor (existsFlag pc))
            (renderedStates (effects (Execute op rt pc))).
Proof.
  assert (Hnone : forall o,
             existsFlag (pipelineCache
                           {| hostCache := GetCache (RemoteHost rt);
                              pipelineCache := pc;
                              effects := []; err := o |})
             = existsFlag pc
             /\ Forall (fun s => s = tokenFor (existsFlag pc))
                       (renderedStates
                          (effects
                             {| hostCache := GetCache (RemoteHost rt);
                                pipelineCache := pc;
                                effects := []; err := o |}))).
  { intros o. split; [reflexivity | constructor]. }
  intros [H|H]; cbn [fst] in H; subst op; cbn [Execute].
  - unfold GenerateConfig_Execute, refreshConfig.
    destruct (ETCDName (GetCache (RemoteHost rt))) as [n|]; [|apply Hnone].
    destruct pc as [[[|] acc peers]|]; [| |apply Hnone]; cbn;
      (split; [reflexivity | repeat constructor]).
  - unfold RefreshConfig_Execute, refreshConfig.
    destruct (ETCDName (GetCache (RemoteHost rt))) as [n|]; [|apply Hnone].
    destruct pc as [[[|] acc peers]|]; [| |apply Hnone]; cbn;
      (split; [reflexivity | repeat constructor]).
Qed.

Lemma runLog_by_flag (sched : Schedule) :
  Forall rendersByFlag sched ->
  forall pc,
    Forall (fun s => s = tokenFor (existsFlag pc))
           (renderedStates (runLog sched pc)).
Proof.
  induction 1 as [|[op rt] sched Hstep _ IH]; intros pc.
  - constructor.
  - cbn [runLog fst snd]. rewrite renderedStates_app.
    destruct (rendersByFlag_step op rt pc Hstep) as (Hflag & Hnow).
    apply Forall_app. split; [exact Hnow|].
    rewrite <- Hflag. apply IH.
Qed.

(** X10.  Once every host has been probed, all hosts get the same token.
    After successful probes of a list of hosts from an empty pipeline cache,
    every config that any sequence of [GenerateConfig] and [RefreshConfig]
    (without [ToExisting]) steps renders, on whatever hosts, carries
    ["existing"] if at least one probed host has the marker file and
    ["new"] otherwise; steps that fail render nothing. *)
Theorem tokens_follow_probes (rts : list Runtime) (sched : Schedule) :
  Forall probeSucceeds rts ->
  Forall rendersByFlag sched ->
  Forall (fun s => s = tokenFor (existsb markerPresent rts))
         (renderedStates (runLog sched (runSchedule (probesOf rts) None))).
Proof.
  intros Hp Hs.
  destruct (probes_flag rts None Hp) as (Hflag & _).
  cbn [existsFlag orb] in Hflag. rewrite <- Hflag.
  now apply runLog_by_flag.
Qed.

(** ** Certificate generation and distribution *)

Lemma fetched_app (l1 l2 : list Call) :
  fetched (l1 ++ l2) = fetched l1 ++ fetched l2.
Proof. apply flat_map_app. Qed.

Lemma fetchFiles_calls (k : Paths) (tp : Transport)
      (localCertsDir tmpCertsDir : string) (files : list string) :
  exists n,
    n <= length files
    /\ fetched (fst (fetchFiles k tp localCertsDir tmpCertsDir files))
       = map (fetchPaths k localCertsDir tmpCertsDir) (firstn n files)
    /\ (snd (fetchFiles k tp localCertsDir tmpCertsDir files) = None ->
        n = length files).
Proof.
  induction files as [|f files IH].
  - exists 0. repeat split. apply Nat.le_refl.
  - cbn [fetchFiles].
    destruct (Fetch tp (filepath_Join k localCertsDir f)
                    (filepath_Join k tmpCertsDir f)) as [e|].
    + exists 1. cbn. repeat split; [lia | discriminate].
    + destruct IH as (n & Hn & Hcalls & Hall).
      destruct (fetchFiles k tp localCertsDir tmpCertsDir files)
        as [asked e].
      exists (S n). cbn [fst snd length firstn map fetched flat_map app] in *.
      split; [lia|]. split.
      * unfold fetched in Hcalls. now rewrite Hcalls.
      * intros He. now rewrite (Hall He).
Qed.

Lemma fetchFiles_ok_iff (k : Paths) (tp : Transport)
      (localCertsDir tmpCertsDir : string) (files : list string) :
  snd (fetchFiles k tp localCertsDir tmpCertsDir files) = None
  <-> Forall (fun f => Fetch tp (filepath_Join k localCertsDir f)
                             (filepath_Join k tmpCertsDir f) = None)
             files.
Proof.
  induction files as [|f files IH].
  - split; [constructor | reflexivity].
  - cbn [fetchFiles].
    destruct (Fetch tp (filepath_Join k localCertsDir f)
                    (filepath_Join k tmpCertsDir f)) as [e|] eqn:Hf.
    + cbn. split; [discriminate|].
      intros H. inversion H; subst. congruence.
    + destruct (fetchFiles k tp localCertsDir tmpCertsDir files)
        as [asked e].
      cbn [snd] in *. split.
      * intros He. constructor; [exact Hf | now apply IH].
      * intros H. inversion H; subst. now apply IH.
Qed.

Lemma pushFiles_calls (k : Paths) (tp : Transport) (dir : string)
      (files : list string) :
  exists n,
    n <= length files
    /\ pushed (fst (pushFiles k tp dir files))
       = map (pushPaths k dir) (firstn n files)
    /\ (snd (pushFiles k tp dir files) = None -> n = length files).
Proof.
  induction files as [|f files IH].
  - exists 0. repeat split. apply Nat.le_refl.
  - cbn [pushFiles].
    destruct (SudoScp tp (filepath_Join k dir f)
                      (filepath_Join k (ETCDCertDir k) f)) as [e|].
    + exists 1. cbn. repeat split; [lia | discriminate].
    + destruct IH as (n & Hn & Hcalls & Hall).
      destruct (pushFiles k tp dir files) as [asked e].
      exists (S n). cbn [fst snd length firstn map pushed flat_map app] in *.
      split; [lia|]. split.
      * unfold pushed in Hcalls. now rewrite Hcalls.
      * intros He. now rewrite (Hall He).
Qed.

Lemma pushFiles_ok_iff (k : Paths) (tp : Transport) (dir : string)
      (files : list string) :
  snd (pushFiles k tp dir files) = None
  <-> Forall (fun f => SudoScp tp (filepath_Join k dir f)
                               (filepath_Join k (ETCDCertDir k) f) = None)
             files.
Proof.
  induction files as [|f files IH].
  - split; [constructor | reflexivity].
  - cbn [pushFiles].
    destruct (SudoScp tp (filepath_Join k dir f)
                      (filepath_Join k (ETCDCertDir k) f)) as [e|] eqn:Hf.
    + cbn. split; [discriminate|].
      intros H. inversion H; subst. congruence.
    + destruct (pushFiles k tp dir files) as [asked e].
      cbn [snd] in *. split.
      * intros He. constructor; [exact Hf | now apply IH].
      * intros H. inversion H; subst. now apply IH.
Qed.

(** The two ways [ExecCertsScript] ends: it failed and left the module
    cache alone, having fetched the first [n] files of the list; or it
    succeeded, fetched them all and published the directory and the list. *)
Lemma ExecCertsScript_cases (k : Paths) (rt : Runtime) (tp : Transport)
      (mc : ModuleCache) :
  let out := ExecCertsScript_Execute k rt tp mc in
  let localCertsDir := filepath_Join k (GetWorkDir tp) "ETCD_certs" in
  let tmpCertsDir := filepath_Join k (TmpDir k) "ETCD_certs" in
  let files := generateCertsFiles rt in
  (failure out <> None
   /\ moduleCache out = mc
   /\ exists n,
       n <= length files
       /\ fetched (calls out)
          = map (fetchPaths k localCertsDir tmpCertsDir) (firstn n files))
  \/ (failure out = None
      /\ moduleCache out = {| LocalCertsDir := Some localCertsDir;
                              CertsFileList := Some files |}
      /\ fetched (calls out)
         = map (fetchPaths k localCertsDir tmpCertsDir) files).
Proof.
  cbv zeta. unfold ExecCertsScript_Execute.
  assert (H0 : 0 <= length (generateCertsFiles rt)) by lia.
  destruct (SudoCmd (GetRunner rt) _ false) as [s1 [e1|]].
  { left. cbn. split; [discriminate|]. split; [reflexivity|].
    exists 0. now split. }
  destruct (SudoCmd (GetRunner rt) _ false) as [s2 [e2|]].
  { left. cbn. split; [discriminate|]. split; [reflexivity|].
    exists 0. now split. }
  destruct (SudoCmd (GetRunner rt) _ false) as [s3 [e3|]].
  { left. cbn. split; [discriminate|]. split; [reflexivity|].
    exists 0. now split. }
  destruct (CreateDir tp _) as [e4|].
  { left. cbn. split; [discriminate|]. split; [reflexivity|].
    exists 0. now split. }
  destruct (fetchFiles_calls
              k tp (filepath_Join k (GetWorkDir tp) "ETCD_certs")
              (filepath_Join k (TmpDir k) "ETCD_certs")
              (generateCertsFiles rt))
    as (n & Hn & Hcalls & Hall).
  destruct (fetchFiles k tp _ _ (generateCertsFiles rt)) as [asked [e5|]];
    cbn [fst snd] in *.
  - left. cbn [failure moduleCache calls].
    split; [discriminate|]. split; [reflexivity|].
    exists n. split; [exact Hn|].
    rewrite fetched_app. exact Hcalls.
  - right. cbn [failure moduleCache calls].
    split; [reflexivity|]. split; [reflexivity|].
    rewrite fetched_app. cbn [fetched flat_map app].
    fold (fetched asked). rewrite Hcalls, (Hall eq_refl).
    now rewrite firstn_all.
Qed.

(** X11.  When [ExecCertsScript] returns no error, it has fetched every
    file of the derived certificate list, once each and in list order, from
    the temporary directory on the host into [{workDir}/ETCD_certs] (so
    [2 + 4 * members + 2 * control-planes] transfers), and the module cache
    then holds that directory and exactly that list, replacing whatever it
    held before. *)
Theorem ExecCertsScript_publishes_on_success
        (k : Paths) (rt : Runtime) (tp : Transport) (mc : ModuleCache) :
  failure (ExecCertsScript_Execute k rt tp mc) = None ->
  let out := ExecCertsScript_Execute k rt tp mc in
  let localCertsDir := filepath_Join k (GetWorkDir tp) "ETCD_certs" in
  let tmpCertsDir := filepath_Join k (TmpDir k) "ETCD_certs" in
  moduleCache out = {| LocalCertsDir := Some localCertsDir;
                       CertsFileList := Some (generateCertsFiles rt) |}
  /\ fetched (calls out)
     = map (fetchPaths k localCertsDir tmpCertsDir) (generateCertsFiles rt)
  /\ length (fetched (calls out))
     = 2 + 4 * length (HostsETCD rt) + 2 * length (HostsMaster rt).
Proof.
  intros Hok. cbv zeta.
  destruct (ExecCertsScript_cases k rt tp mc)
    as [(Hfail & _)|(_ & Hmc & Hcalls)]; [contradiction|].
  split; [exact Hmc|]. split; [exact Hcalls|].
  now rewrite Hcalls, length_map, generateCertsFiles_length.
Qed.

(** X12.  When [ExecCertsScript] returns an error (the chmod, the script,
    the copy, the directory creation or one of the fetches failed), the
    module cache is exactly as it was, so no directory and no file list is
    published for the distribution step, and the files fetched so far are
    the first [n] of the derived list, in order, for some [n]. *)
Theorem ExecCertsScript_failure_publishes_nothing
        (k : Paths) (rt : Runtime) (tp : Transport) (mc : ModuleCache) :
  failure (ExecCertsScript_Execute k rt tp mc) <> None ->
  let out := ExecCertsScript_Execute k rt tp mc in
  let localCertsDir := filepath_Join k (GetWorkDir tp) "ETCD_certs" in
  let tmpCertsDir := filepath_Join k (TmpDir k) "ETCD_certs" in
  moduleCache out = mc
  /\ exists n,
      n <= length (generateCertsFiles rt)
      /\ fetched (calls out)
         = map (fetchPaths k localCertsDir tmpCertsDir)
               (firstn n (generateCertsFiles rt)).
Proof.
  intros Hfail. cbv zeta.
  destruct (ExecCertsScript_cases k rt tp mc)
    as [(_ & Hmc & Hcalls)|(Hok & _)]; [|contradiction].
  split; assumption.
Qed.

Lemma SyncCertsFile_present (k : Paths) (tp : Transport) (dir : string)
      (files : list string) :
  let out := SyncCertsFile_Execute
               k tp {| LocalCertsDir := Some dir;
                       CertsFileList := Some files |} in
  calls out = fst (pushFiles k tp dir files)
  /\ failure out = snd (pushFiles k tp dir files)
  /\ moduleCache out = {| LocalCertsDir := Some dir;
                          CertsFileList := Some files |}.
Proof.
  cbv zeta. unfold SyncCertsFile_Execute. cbn [LocalCertsDir CertsFileList].
  now destruct (pushFiles k tp dir files).
Qed.

(** X13.  Distribution pushes what generation fetched.  After a successful
    [ExecCertsScript], [SyncCertsFile] on a host whose transfers succeed
    pushes every file of the derived certificate list, in order, from the
    local directory the generation step recorded to the certificate
    directory of the host: the local paths pushed are the local paths
    fetched.  The whole list goes to every host, whatever its role, and the
    module cache is left as the generation step set it. *)
Theorem SyncCertsFile_pushes_what_was_fetched
        (k : Paths) (rt : Runtime) (tp tp' : Transport) (mc : ModuleCache) :
  failure (ExecCertsScript_Execute k rt tp mc) = None ->
  let gen := ExecCertsScript_Execute k rt tp mc in
  let localCertsDir := filepath_Join k (GetWorkDir tp) "ETCD_certs" in
  Forall (fun f => SudoScp tp' (filepath_Join k localCertsDir f)
                           (filepath_Join k (ETCDCertDir k) f) = None)
         (generateCertsFiles rt) ->
  let out := SyncCertsFile_Execute k tp' (moduleCache gen) in
  failure out = None
  /\ pushed (calls out)
     = map (pushPaths k localCertsDir) (generateCertsFiles rt)
  /\ map fst (pushed (calls out)) = map fst (fetched (calls gen))
  /\ moduleCache out = moduleCache gen.
Proof.
  intros Hok. cbv zeta. intros Hscp.
  destruct (ExecCertsScript_cases k rt tp mc)
    as [(Hfail & _)|(_ & Hmc & Hcalls)]; [contradiction|].
  rewrite Hmc, Hcalls.
  destruct (SyncCertsFile_present
              k tp' (filepath_Join k (GetWorkDir tp) "ETCD_certs")
              (generateCertsFiles rt))
    as (Hc & Hf & Hm).
  rewrite Hc, Hf, Hm.
  apply pushFiles_ok_iff in Hscp.
  destruct (pushFiles_calls
              k tp' (filepath_Join k (GetWorkDir tp) "ETCD_certs")
              (generateCertsFiles rt))
    as (n & _ & Hpushed & Hall).
  rewrite (Hall Hscp), firstn_all in Hpushed.
  split; [exact Hscp|]. split; [exact Hpushed|]. split; [|reflexivity].
  rewrite Hpushed, !map_map. reflexivity.
Qed.


(** ** One entry per host *)

(** Filtering keeps two lists permutations of each other. *)
Lemma filter_Permutation {A : Type} (keep : A -> bool) :
  forall xs ys : list A,
    Permutation xs ys -> Permutation (filter keep xs) (filter keep ys).
Proof.
  intros xs ys Hperm.
  induction Hperm as [|x xs ys _ IH|x y xs|xs ys zs _ IH1 _ IH2];
    cbn [filter].
  - constructor.
  - destruct (keep x); [now apply perm_skip | exact IH].
  - destruct (keep x), (keep y);
      try apply perm_swap; try apply Permutation_refl.
  - now apply Permutation_trans with (filter keep ys).
Qed.

Lemma filter_split_Permutation {A : Type} (f : A -> bool) (l : list A) :
  Permutation (filter f l ++ filter (fun x => negb (f x)) l) l.
Proof.
  induction l as [|x l IH]; cbn [filter]; [constructor|].
  destruct (f x); cbn [negb app].
  - now apply perm_skip.
  - apply Permutation_sym, Permutation_cons_app. now apply Permutation_sym.
Qed.

Lemma contribution_Permutation (rts : list Runtime) :
  forall (sched : list (Op * nat)) (done : list nat),
    ordered (length rts) done sched ->
    Permutation
      (flat_map (contribution rts) sched)
      (map entryOf (filter markerPresent (hostsOf rts (probes sched)))
           ++ map entryOf (hostsOf rts (configs sched))).
Proof.
  induction sched as [|[op i] rest IH]; intros done Hord; [constructor|].
  destruct op; cbn [ordered] in Hord; try contradiction.
  - destruct Hord as (Hi & Hord). specialize (IH _ Hord).
    cbn [flat_map]. unfold probes, configs, contribution in *.
    cbn [filter isGetStatus isGenerateConfig fst snd map].
    rewrite hostsOf_cons.
    destruct (nth_error rts i) as [rt|]; [|exact IH].
    cbn [app filter]. destruct (markerPresent rt); cbn [map app].
    + now apply perm_skip.
    + exact IH.
  - destruct Hord as (Hi & _ & Hord). specialize (IH _ Hord).
    cbn [flat_map]. unfold probes, configs, contribution in *.
    cbn [filter isGetStatus isGenerateConfig fst snd map].
    rewrite hostsOf_cons.
    destruct (nth_error rts i) as [rt|]; [|exact IH].
    cbn [app map]. now apply Permutation_cons_app.
Qed.

(** X15.  The schedule under which the peer list has one entry per host.
    Probe each of N hosts once and run [GenerateConfig] once on exactly the
    hosts that do not carry the marker file, each after its probe, every
    collaborator call succeeding.  Then a marker host contributes its entry
    in the probe and a fresh host in the config generation: the peer list
    is, up to order, the list of the hosts' entries, one per host, so it
    has exactly N entries, built from pairwise distinct member names
    whenever the recorded member names are pairwise distinct. *)
Theorem guarded_configs_give_one_entry_per_host
        (rts : list Runtime) (sched : list (Op * nat)) :
  Forall probeSucceeds rts ->
  Forall renderSucceeds rts ->
  ordered (length rts) [] sched ->
  Permutation (probes sched) (seq 0 (length rts)) ->
  Permutation (hostsOf rts (configs sched))
              (filter (fun rt => negb (markerPresent rt)) rts) ->
  let final := visits rts sched (start rts) in
  let peers := peersOf (shared (fst final)) in
  snd final = None
  /\ Permutation peers (map entryOf rts)
  /\ length peers = length rts
  /\ exists order,
      Permutation rts order
      /\ peers = map entryOf order
      /\ (NoDup (map probedName rts) -> NoDup (map probedName order)).
Proof.
  intros Hp Hr Hord Hprobes Hconfigs. cbv zeta.
  destruct (visits_ordered rts Hp Hr sched (start rts) []
                           (start_recorded rts)
                           (fun H => False_ind _ (H eq_refl)) Hord)
    as (run' & Hrun & Hpeers).
  rewrite Hrun. cbn [fst snd]. cbn [start shared peersOf app] in Hpeers.
  assert (HP : Permutation (peersOf (shared run')) (map entryOf rts)).
  { rewrite Hpeers.
    apply Permutation_trans
      with (map entryOf (filter markerPresent (hostsOf rts (probes sched)))
              ++ map entryOf (hostsOf rts (configs sched)));
      [exact (contribution_Permutation rts sched [] Hord)|].
    rewrite <- map_app. apply Permutation_map.
    apply Permutation_trans
      with (filter markerPresent rts
              ++ filter (fun rt => negb (markerPresent rt)) rts);
      [|apply filter_split_Permutation].
    apply Permutation_app; [|exact Hconfigs].
    apply filter_Permutation. now apply hostsOf_all. }
  split; [reflexivity|]. split; [exact HP|].
  split; [now rewrite (Permutation_length HP), length_map|].
  destruct (Permutation_map_inv entryOf rts HP)
    as (order & Heq & Hperm).
  exists order. split; [exact Hperm|]. split; [exact Heq|].
  intros Hnd.
  exact (Permutation_NoDup (Permutation_map probedName Hperm) Hnd).
Qed.


End Tasks.

(** ** The statements at concrete hosts *)

(** One host that already runs etcd, probed and then configured: the
    probe appends its entry and the config generation appends it once
    more. *)
Lemma member_host_counted_twice :
  Forall probeSucceeds [member1]
  /\ Forall renderSucceeds [member1]
  /\ ordered 1 [] [(OpGetStatus, 0); (OpGenerateConfig, 0)]
  /\ snd (visits sampleBinDir sampleEtcdVersion sampleEnvName [member1]
                 [(OpGetStatus, 0); (OpGenerateConfig, 0)] (start [member1]))
     = None
  /\ peersOf (shared (fst (visits sampleBinDir sampleEtcdVersion
                                  sampleEnvName [member1]
                                  [(OpGetStatus, 0); (OpGenerateConfig, 0)]
                                  (start [member1]))))
     = ["etcd-node1=https://10.0.0.1:2380";
        "etcd-node1=https://10.0.0.1:2380"]
  /\ length (peersOf (shared (fst (visits sampleBinDir sampleEtcdVersion
                                          sampleEnvName [member1]
                                          [(OpGetStatus, 0);
                                           (OpGenerateConfig, 0)]
                                          (start [member1])))))
     <> length [member1]
  /\ ~ NoDup (peersOf (shared (fst (visits sampleBinDir sampleEtcdVersion
                                           sampleEnvName [member1]
                                           [(OpGetStatus, 0);
                                            (OpGenerateConfig, 0)]
                                           (start [member1]))))).
Proof.
  split.
  { repeat constructor. }
  split.
  { constructor; [intros t; reflexivity | constructor]. }
  split.
  { cbn. repeat split; auto. }
  split; [reflexivity|].
  split; [reflexivity|].
  split; [cbn; discriminate|].
  cbn. intros H. inversion H as [|? ? Hnotin _]; subst.
  apply Hnotin. now left.
Qed.

(** Three fresh hosts, each probed and configured in turn. *)
Lemma peerAddresses_accumulate_witness :
  Forall probeSucceeds threeFresh
  /\ Forall renderSucceeds threeFresh
  /\ ordered (length threeFresh) [] onePerHost
  /\ Permutation (probes onePerHost) (seq 0 (length threeFresh))
  /\ Permutation (configs onePerHost) (seq 0 (length threeFresh))
  /\ length (peersOf (shared (fst (visits sampleBinDir sampleEtcdVersion
                                          sampleEnvName threeFresh
                                          onePerHost (start threeFresh)))))
     = 0 + 3.
Proof.
  assert (Hp : Forall probeSucceeds threeFresh).
  { repeat constructor; discriminate. }
  assert (Hr : Forall renderSucceeds threeFresh).
  { repeat constructor. }
  assert (Ho : ordered (length threeFresh) [] onePerHost).
  { cbn. repeat split; auto. }
  assert (Hprobes : Permutation (probes onePerHost)
                                (seq 0 (length threeFresh)))
    by apply Permutation_refl.
  assert (Hconfigs : Permutation (configs onePerHost)
                                 (seq 0 (length threeFresh))).
  { cbn. apply perm_swap. }
  split; [exact Hp|]. split; [exact Hr|]. split; [exact Ho|].
  split; [exact Hprobes|]. split; [exact Hconfigs|].
  destruct (peerAddresses_accumulate sampleBinDir sampleEtcdVersion
                                     sampleEnvName threeFresh onePerHost
                                     Hp Hr Ho Hprobes Hconfigs)
    as (_ & _ & Hlen & _).
  exact Hlen.
Defined.

Lemma clusterExist_monotone_witness :
  existsFlag (runSchedule sampleBinDir sampleEtcdVersion sampleEnvName
                          [(OpGetStatus, member1)] None) = true
  /\ existsFlag (runSchedule sampleBinDir sampleEtcdVersion sampleEnvName
                             ([(OpGetStatus, member1)]
                                ++ [(OpGetStatus, fresh node2);
                                    (OpGenerateAccessAddress, fresh node2);
                                    (OpGenerateConfig, fresh node2);
                                    (OpRefreshConfig false, fresh node2)])
                             None) = true.
Proof.
  split; [reflexivity|].
  apply (clusterExist_monotone sampleBinDir sampleEtcdVersion sampleEnvName).
  reflexivity.
Defined.

Lemma GenerateConfig_token_and_peers_witness :
  ETCDName (GetCache (RemoteHost configured1)) = Some "etcd-node1"
  /\ exists t,
      effects (GenerateConfig_Execute sampleEtcdVersion sampleEnvName
                                      configured1 (Some foundingCluster))
      = [ERender t]
      /\ (State (Data t) = "new" <-> clusterExist foundingCluster = false)
      /\ peerAddressesField (Data t)
         = strings.Join
             (peerAddresses foundingCluster
                ++ [peerEntry "etcd-node1" (RemoteHost configured1)]) ",".
Proof.
  split; [reflexivity|].
  destruct (GenerateConfig_token_and_peers
              sampleEtcdVersion sampleEnvName configured1 foundingCluster
              "etcd-node1" eq_refl)
    as (t & He & Hnew & _ & Hpeers & _).
  exists t. split; [exact He|]. split; [exact Hnew | exact Hpeers].
Defined.

Lemma RefreshConfig_ToExisting_forces_existing_witness :
  ETCDName (GetCache (RemoteHost configured1)) = Some "etcd-node1"
  /\ exists t,
      effects (RefreshConfig_Execute sampleEtcdVersion sampleEnvName true
                                     configured1 (Some foundingCluster))
      = [ERender t]
      /\ State (Data t) = "existing".
Proof.
  split; [reflexivity|].
  destruct (RefreshConfig_ToExisting_forces_existing
              sampleEtcdVersion sampleEnvName configured1 foundingCluster
              "etcd-node1" eq_refl)
    as (t & He & Hs & _).
  exists t. split; assumption.
Defined.

Lemma GetStatus_records_identity_witness :
  (FileExist (GetRunner member1) etcdEnvPath = (true, None)
   /\ SudoCmd (GetRunner member1) readNameCmd true
      = ("ETCD_NAME=etcd-node1", None)
   /\ ETCDName (hostCache (GetStatus_Execute member1 None))
      = Some "etcd-node1"
   /\ ETCDExist (hostCache (GetStatus_Execute member1 None)) = Some true)
  /\ (FileExist (GetRunner (fresh node2)) etcdEnvPath = (false, None)
      /\ ETCDName (hostCache (GetStatus_Execute (fresh node2) None))
         = Some "etcd-node2"
      /\ ETCDExist (hostCache (GetStatus_Execute (fresh node2) None))
         = Some false)
  /\ (FileExist (GetRunner (runtimeOn node3 (failing "ssh"))) etcdEnvPath
      = (false, Some (errors.external "ssh"))
      /\ err (GetStatus_Execute (runtimeOn node3 (failing "ssh")) None)
         = Some (errors.external "ssh")
      /\ hostCache (GetStatus_Execute (runtimeOn node3 (failing "ssh")) None)
         = emptyCache)
  /\ (SudoCmd (GetRunner (runtimeOn node3 (unreadable "denied")))
              readNameCmd true
      = ("", Some (errors.external "denied"))
      /\ err (GetStatus_Execute (runtimeOn node3 (unreadable "denied")) None)
         = Some (errors.external "denied")
      /\ hostCache (GetStatus_Execute (runtimeOn node3 (unreadable "denied"))
                                      None)
         = emptyCache).
Proof.
  split; [|split; [|split]].
  - destruct (GetStatus_records_identity member1 None) as (H & _).
    destruct (H "ETCD_NAME=etcd-node1" eq_refl eq_refl)
      as (_ & _ & Hflag & _ & Hname).
    split; [reflexivity|]. split; [reflexivity|].
    split; [now apply Hname | exact Hflag].
  - destruct (GetStatus_records_identity (fresh node2) None)
      as (_ & H & _).
    destruct (H eq_refl) as (_ & Hname & Hflag).
    split; [reflexivity|]. split; assumption.
  - destruct (GetStatus_records_identity (runtimeOn node3 (failing "ssh"))
                                         None)
      as (_ & _ & H & _).
    destruct (H false (errors.external "ssh") eq_refl) as (He & Hc & _).
    split; [reflexivity|]. split; assumption.
  - destruct (GetStatus_records_identity
                (runtimeOn node3 (unreadable "denied")) None)
      as (_ & _ & _ & H).
    destruct (H "" (errors.external "denied") eq_refl eq_refl)
      as (He & Hc & _).
    split; [reflexivity|]. split; assumption.
Defined.

(** With an empty [accessAddresses] and a runner whose command succeeds,
    the health check reports no error. *)
Lemma HealthCheck_empty_access_reports_healthy :
  accessAddresses emptyCluster = ""
  /\ err (HealthCheck_Execute sampleBinDir
                              (runtimeOn node1 (answering true ""))
                              (Some emptyCluster))
     = None.
Proof.
  split; reflexivity.
Qed.

Lemma HealthCheck_empty_access_follows_command_witness :
  accessAddresses emptyCluster = ""
  /\ (err (HealthCheck_Execute sampleBinDir
                               (runtimeOn node1 (failing "ssh"))
                               (Some emptyCluster))
      = errors.Wrap (errors.WithStack (Some (errors.external "ssh")))
                    "etcd health check failed").
Proof.
  split; [reflexivity|].
  destruct (HealthCheck_empty_access_follows_command
              sampleBinDir (runtimeOn node1 (failing "ssh")) emptyCluster
              eq_refl)
    as (_ & He & _).
  exact He.
Defined.

(** Member-role hosts [a] and [a-key]: the key of the one and the
    certificate of the other are the same file, for [admin-] and for
    [member-], so the twelve entries name ten files. *)
Lemma generateCertsFiles_key_suffix_collision :
  NoDup (map GetName [hostA; hostAKey])
  /\ length (generateCertsFiles (inventory [hostA; hostAKey] [hostM])) = 12
  /\ ~ NoDup (generateCertsFiles (inventory [hostA; hostAKey] [hostM]))
  /\ length (nodup string_dec
                   (generateCertsFiles (inventory [hostA; hostAKey] [hostM])))
     = 10.
Proof.
  split.
  { repeat constructor; cbn; intuition discriminate. }
  split; [reflexivity|].
  split; [|vm_compute; reflexivity].
  intros H. apply (nodup_fixed_point string_dec) in H.
  apply (f_equal (@length string)) in H.
  vm_compute in H. discriminate H.
Qed.

Lemma generateCertsFiles_order_independent_witness :
  Permutation (HostsETCD (inventory [node1; node2] [node3]))
              (HostsETCD (inventory [node2; node1] [node3]))
  /\ Permutation (HostsMaster (inventory [node1; node2] [node3]))
                 (HostsMaster (inventory [node2; node1] [node3]))
  /\ Permutation (generateCertsFiles (inventory [node1; node2] [node3]))
                 (generateCertsFiles (inventory [node2; node1] [node3]))
  /\ length (generateCertsFiles (inventory [node1; node2] [node3])) = 12
  /\ NoDup (generateCertsFiles (inventory [node1; node2] [node3])).
Proof.
  assert (He : Permutation (HostsETCD (inventory [node1; node2] [node3]))
                           (HostsETCD (inventory [node2; node1] [node3])))
    by apply perm_swap.
  assert (Hm : Permutation (HostsMaster (inventory [node1; node2] [node3]))
                           (HostsMaster (inventory [node2; node1] [node3])))
    by apply Permutation_refl.
  split; [exact He|]. split; [exact Hm|].
  destruct (generateCertsFiles_order_independent _ _ He Hm)
    as (HP & _ & _ & _ & H12 & Hnd).
  split; [exact HP|]. split; [now apply H12|].
  apply Hnd.
  - repeat constructor; cbn; intuition discriminate.
  - repeat constructor; cbn; intuition discriminate.
  - intros a b [<-|[<-|[]]] [<-|[<-|[]]]; discriminate.
  - intros a b [<-|[]] [<-|[]]; discriminate.
Defined.

(** The member list of [node1] comes back empty, so its endpoint
    ["https://10.0.0.1:2379"] is not in it, and the check passes. *)
Lemma CheckMember_absent_endpoint_reports_success_witness :
  clientEndpoint node1 = "https://10.0.0.1:2379"
  /\ SudoCmd (GetRunner (runtimeOn node1 (answering true "")))
             (checkMemberCmd sampleBinDir node1 emptyCluster) true
     = ("", None)
  /\ strings.Contains "" (clientEndpoint node1) = false
  /\ err (CheckMember_Execute sampleBinDir
                              (runtimeOn node1 (answering true ""))
                              (Some emptyCluster))
     = None.
Proof.
  split; [reflexivity|]. split; [reflexivity|]. split; [reflexivity|].
  destruct (CheckMember_absent_endpoint_reports_success
              sampleBinDir (runtimeOn node1 (answering true ""))
              emptyCluster "" eq_refl eq_refl)
    as (_ & He).
  exact He.
Defined.

(** ** The further properties at concrete hosts *)

Lemma GenerateAccessAddress_joins_endpoints_witness :
  HostsETCD (inventory [] [node3]) = []
  /\ accessOf (pipelineCache
                 (GenerateAccessAddress_Execute (inventory [] [node3])
                                                (Some emptyCluster)))
     = "".
Proof.
  split; [reflexivity|].
  destruct (GenerateAccessAddress_joins_endpoints (inventory [] [node3])
                                                  emptyCluster)
    as (_ & _ & _ & _ & Hempty & _).
  exact (Hempty eq_refl).
Defined.

Lemma probes_set_exists_iff_marker_witness :
  Forall probeSucceeds [fresh node1; member1]
  /\ existsFlag (runSchedule sampleBinDir sampleEtcdVersion sampleEnvName
                             (probesOf [fresh node1; member1]) None)
     = existsFlag None || existsb markerPresent [fresh node1; member1].
Proof.
  assert (Hp : Forall probeSucceeds [fresh node1; member1]).
  { repeat constructor; discriminate. }
  split; [exact Hp|].
  destruct (probes_set_exists_iff_marker
              sampleBinDir sampleEtcdVersion sampleEnvName
              [fresh node1; member1] None Hp)
    as (Hflag & _).
  exact Hflag.
Defined.

Lemma GetStatus_fails_only_with_runner_witness :
  err (GetStatus_Execute (runtimeOn node3 (unreadable "denied")) None)
  = Some (errors.external "denied")
  /\ (snd (FileExist (GetRunner (runtimeOn node3 (unreadable "denied")))
                     etcdEnvPath)
      = Some (errors.external "denied")
      \/ (FileExist (GetRunner (runtimeOn node3 (unreadable "denied")))
                    etcdEnvPath
          = (true, None)
          /\ snd (SudoCmd (GetRunner (runtimeOn node3 (unreadable "denied")))
                          readNameCmd true)
             = Some (errors.external "denied"))).
Proof.
  split; [reflexivity|].
  destruct (GetStatus_fails_only_with_runner
              (runtimeOn node3 (unreadable "denied")) None)
    as (_ & H).
  destruct (H (errors.external "denied") eq_refl) as (Horigin & _).
  exact Horigin.
Defined.

Lemma GetStatus_name_is_value_witness :
  FileExist (GetRunner (runtimeOn node1 (answering true "ETCD_NAME=a=b")))
            etcdEnvPath
  = (true, None)
  /\ strings.Contains "ETCD_NAME" "=" = false
  /\ SudoCmd (GetRunner (runtimeOn node1 (answering true "ETCD_NAME=a=b")))
             readNameCmd true
     = (("ETCD_NAME" ++ "=" ++ "a=b")%string, None)
  /\ ETCDName (hostCache
                 (GetStatus_Execute
                    (runtimeOn node1 (answering true "ETCD_NAME=a=b"))
                    None))
     = Some "a=b".
Proof.
  split; [reflexivity|]. split; [reflexivity|]. split; [reflexivity|].
  destruct (GetStatus_name_is_value
              (runtimeOn node1 (answering true "ETCD_NAME=a=b")) None
              eq_refl)
    as (H & _).
  destruct (H "ETCD_NAME" "a=b" eq_refl eq_refl) as (Hname & _).
  exact Hname.
Defined.

Lemma steps_fail_without_name_witness :
  ETCDName (GetCache (RemoteHost (fresh node1))) = None
  /\ Forall (fun op =>
               effects (Execute sampleBinDir sampleEtcdVersion sampleEnvName
                                op (fresh node1) (Some emptyCluster))
               = [])
            needName.
Proof.
  split; [reflexivity|].
  pose proof (steps_fail_without_name
                sampleBinDir sampleEtcdVersion sampleEnvName
                (fresh node1) (Some emptyCluster) eq_refl) as H.
  apply Forall_forall. intros op Hin.
  apply (proj1 (Forall_forall _ _) H op Hin).
Defined.

Lemma JoinMember_follows_command_witness :
  ETCDName (GetCache (RemoteHost configured1)) = Some "etcd-node1"
  /\ length (effects (JoinMember_Execute sampleBinDir configured1
                                         (Some emptyCluster)))
     = 1.
Proof.
  split; [reflexivity|].
  destruct (JoinMember_follows_command sampleBinDir configured1 emptyCluster
                                       "etcd-node1" eq_refl)
    as (He & _).
  now rewrite He.
Defined.

Lemma GenerateConfig_appends_each_run_witness :
  ETCDName (GetCache (RemoteHost
                        (runtimeOn (named node1 "etcd-node1")
                                   (unrendered "disk full"))))
  = Some "etcd-node1"
  /\ peersOf (runSchedule sampleBinDir sampleEtcdVersion sampleEnvName
                          (repeat (OpGenerateConfig,
                                   runtimeOn (named node1 "etcd-node1")
                                             (unrendered "disk full")) 2)
                          (Some foundingCluster))
     = ["etcd-node1=https://10.0.0.1:2380";
        "etcd-node1=https://10.0.0.1:2380"].
Proof.
  split; [reflexivity|].
  rewrite (GenerateConfig_appends_each_run
             sampleBinDir sampleEtcdVersion sampleEnvName
             (runtimeOn (named node1 "etcd-node1") (unrendered "disk full"))
             foundingCluster "etcd-node1" 2 eq_refl).
  reflexivity.
Defined.

Lemma RefreshConfig_rerenders_generated_witness :
  ETCDName (GetCache (RemoteHost configured1)) = Some "etcd-node1"
  /\ exists t,
      effects (GenerateConfig_Execute sampleEtcdVersion sampleEnvName
                                      configured1 (Some foundingCluster))
      = [ERender t]
      /\ effects (RefreshConfig_Execute
                    sampleEtcdVersion sampleEnvName false configured1
                    (pipelineCache
                       (GenerateConfig_Execute sampleEtcdVersion sampleEnvName
                                               configured1
                                               (Some foundingCluster))))
         = [ERender t].
Proof.
  split; [reflexivity|].
  destruct (RefreshConfig_rerenders_generated
              sampleEtcdVersion sampleEnvName configured1 foundingCluster
              "etcd-node1" eq_refl)
    as (t & Hgen & Hre & _).
  exists t. split; [exact Hgen | exact Hre].
Defined.

Lemma tokens_follow_probes_witness :
  Forall probeSucceeds threeFresh
  /\ Forall rendersByFlag [(OpGenerateConfig, configured1);
                           (OpRefreshConfig false, configured1)]
  /\ Forall (fun s => s = tokenFor (existsb markerPresent threeFresh))
            (renderedStates
               (runLog sampleBinDir sampleEtcdVersion sampleEnvName
                       [(OpGenerateConfig, configured1);
                        (OpRefreshConfig false, configured1)]
                       (runSchedule sampleBinDir sampleEtcdVersion
                                    sampleEnvName (probesOf threeFresh)
                                    None))).
Proof.
  assert (Hp : Forall probeSucceeds threeFresh).
  { repeat constructor; discriminate. }
  assert (Hs : Forall rendersByFlag [(OpGenerateConfig, configured1);
                                     (OpRefreshConfig false, configured1)]).
  { constructor; [now left|]. constructor; [now right | constructor]. }
  split; [exact Hp|]. split; [exact Hs|].
  exact (tokens_follow_probes sampleBinDir sampleEtcdVersion sampleEnvName
                              threeFresh _ Hp Hs).
Defined.

Lemma ExecCertsScript_publishes_on_success_witness :
  failure (ExecCertsScript_Execute samplePaths certHost (smooth "/work")
                                   emptyModuleCache)
  = None
  /\ moduleCache (ExecCertsScript_Execute samplePaths certHost
                                          (smooth "/work") emptyModuleCache)
     = {| LocalCertsDir := Some "/work/ETCD_certs";
          CertsFileList := Some (generateCertsFiles certHost) |}
  /\ length (fetched (calls (ExecCertsScript_Execute
                               samplePaths certHost (smooth "/work")
                               emptyModuleCache)))
     = 12.
Proof.
  split; [reflexivity|].
  destruct (ExecCertsScript_publishes_on_success
              samplePaths certHost (smooth "/work") emptyModuleCache eq_refl)
    as (Hmc & _ & Hlen).
  split; [exact Hmc | exact Hlen].
Defined.

(** The fetch of [admin-node2.pem], the seventh file, fails. *)
Lemma ExecCertsScript_failure_publishes_nothing_witness :
  failure (ExecCertsScript_Execute
             samplePaths certHost
             (losing "/work" "/work/ETCD_certs/admin-node2.pem")
             emptyModuleCache)
  <> None
  /\ moduleCache (ExecCertsScript_Execute
                    samplePaths certHost
                    (losing "/work" "/work/ETCD_certs/admin-node2.pem")
                    emptyModuleCache)
     = emptyModuleCache.
Proof.
  assert (Hfail : failure (ExecCertsScript_Execute
                             samplePaths certHost
                             (losing "/work"
                                     "/work/ETCD_certs/admin-node2.pem")
                             emptyModuleCache)
                  <> None)
    by (vm_compute; discriminate).
  split; [exact Hfail|].
  destruct (ExecCertsScript_failure_publishes_nothing
              samplePaths certHost
              (losing "/work" "/work/ETCD_certs/admin-node2.pem")
              emptyModuleCache Hfail)
    as (Hmc & _).
  exact Hmc.
Defined.

Lemma SyncCertsFile_pushes_what_was_fetched_witness :
  failure (ExecCertsScript_Execute samplePaths certHost (smooth "/work")
                                   emptyModuleCache)
  = None
  /\ Forall (fun f =>
               SudoScp (smooth "/elsewhere")
                       (filepath_Join
                          samplePaths
                          (filepath_Join samplePaths
                                         (GetWorkDir (smooth "/work"))
                                         "ETCD_certs") f)
                       (filepath_Join samplePaths (ETCDCertDir samplePaths) f)
               = None)
            (generateCertsFiles certHost)
  /\ map fst (pushed (calls (SyncCertsFile_Execute
                               samplePaths (smooth "/elsewhere")
                               (moduleCache
                                  (ExecCertsScript_Execute
                                     samplePaths certHost (smooth "/work")
                                     emptyModuleCache)))))
     = map fst (fetched (calls (ExecCertsScript_Execute
                                  samplePaths certHost (smooth "/work")
                                  emptyModuleCache))).
Proof.
  assert (Hscp : Forall (fun f =>
                           SudoScp (smooth "/elsewhere")
                                   (filepath_Join
                                      samplePaths
                                      (filepath_Join
                                         samplePaths
                                         (GetWorkDir (smooth "/work"))
                                         "ETCD_certs") f)
                                   (filepath_Join samplePaths
                                                  (ETCDCertDir samplePaths) f)
                           = None)
                        (generateCertsFiles certHost)).
  { apply Forall_forall. intros f _. reflexivity. }
  split; [reflexivity|]. split; [exact Hscp|].
  destruct (SyncCertsFile_pushes_what_was_fetched
              samplePaths certHost (smooth "/work") (smooth "/elsewhere")
              emptyModuleCache eq_refl Hscp)
    as (_ & _ & Hsame & _).
  exact Hsame.
Defined.


(** An already-running member and a fresh host: both probed, only the fresh
    one configured. *)
Lemma guarded_configs_give_one_entry_per_host_witness :
  Forall probeSucceeds [member1; fresh node2]
  /\ Forall renderSucceeds [member1; fresh node2]
  /\ ordered (length [member1; fresh node2]) []
             [(OpGetStatus, 0); (OpGetStatus, 1); (OpGenerateConfig, 1)]
  /\ Permutation
       (probes [(OpGetStatus, 0); (OpGetStatus, 1); (OpGenerateConfig, 1)])
       (seq 0 (length [member1; fresh node2]))
  /\ Permutation
       (hostsOf [member1; fresh node2]
                (configs [(OpGetStatus, 0); (OpGetStatus, 1);
                          (OpGenerateConfig, 1)]))
       (filter (fun rt => negb (markerPresent rt)) [member1; fresh node2])
  /\ length (peersOf
               (shared
                  (fst (visits sampleBinDir sampleEtcdVersion sampleEnvName
                               [member1; fresh node2]
                               [(OpGetStatus, 0); (OpGetStatus, 1);
                                (OpGenerateConfig, 1)]
                               (start [member1; fresh node2])))))
     = length [member1; fresh node2].
Proof.
  assert (Hp : Forall probeSucceeds [member1; fresh node2]).
  { repeat constructor; discriminate. }
  assert (Hr : Forall renderSucceeds [member1; fresh node2]).
  { repeat constructor. }
  assert (Ho : ordered (length [member1; fresh node2]) []
                       [(OpGetStatus, 0); (OpGetStatus, 1);
                        (OpGenerateConfig, 1)]).
  { cbn. repeat split; auto. }
  assert (Hprobes : Permutation
                      (probes [(OpGetStatus, 0); (OpGetStatus, 1);
                               (OpGenerateConfig, 1)])
                      (seq 0 (length [member1; fresh node2])))
    by apply Permutation_refl.
  assert (Hconfigs : Permutation
                       (hostsOf [member1; fresh node2]
                                (configs [(OpGetStatus, 0); (OpGetStatus, 1);
                                          (OpGenerateConfig, 1)]))
                       (filter (fun rt => negb (markerPresent rt))
                               [member1; fresh node2]))
    by apply Permutation_refl.
  split; [exact Hp|]. split; [exact Hr|]. split; [exact Ho|].
  split; [exact Hprobes|]. split; [exact Hconfigs|].
  destruct (guarded_configs_give_one_entry_per_host
              sampleBinDir sampleEtcdVersion sampleEnvName
              [member1; fresh node2] _ Hp Hr Ho Hprobes Hconfigs)
    as (_ & _ & Hlen & _).
  exact Hlen.
Defined.

